(** * ToolWorkflow: the workflow tool handed to an agent

    A shallow embedding of [ToolWorkflow.supplyData]: the closure
    [runFunction] (resolve the workflow, compose its input, run it, extract
    the response property) and the [func] of the [DynamicTool] built around
    it, which records the call, folds every outcome into a string and
    records the result.

    JavaScript values are an inductive type, objects are finite maps of
    their own properties, exceptions are an explicit completion, and the
    collaborators reached through [this] (node parameters, the Set node's
    [manual.execute], [executeWorkflow], the run index behind
    [addInputData]) are the fields of an environment, next to what the
    language runtime supplies ([JSON.parse], the prototype chain, the
    rendering of numbers); every call made to the transform, the engine
    and the two provenance functions is appended to a trace. One
    invocation is modelled, run to completion.

    The file also embeds the editor's navigation guard ([router.beforeEach]
    of the editor's router): setup-page redirect first, then the middleware
    of the target route, in order, until one of them answers. *)

From Stdlib Require Import ZArith String Ascii List.
From Stdlib Require Import DecimalString DecimalPos DecimalZ.
From stdpp Require Import base gmap strings list.
Import ListNotations.
Local Open Scope string_scope.
Set Warnings "-register-all".

(** ** Strings *)

(** [s.startsWith(pre)] *)
Fixpoint startsWith (s pre : string) {struct pre} : bool :=
  match pre with
  | EmptyString => true
  | String c pre' =>
      match s with
      | String d s' => Ascii.eqb c d && startsWith s' pre'
      | EmptyString => false
      end
  end.

(** [s.replace(/^=+/, '')]: drop every leading expression marker. *)
Fixpoint strip_markers (s : string) : string :=
  match s with
  | String c rest => if Ascii.eqb c "="%char then strip_markers rest else s
  | EmptyString => EmptyString
  end.

(** A run of [n] expression markers. *)
Fixpoint markers (n : nat) : string :=
  match n with
  | O => EmptyString
  | S k => String "="%char (markers k)
  end.

(** The double quote character, as a one-character string. *)
Definition dquote : string := String "034"%char EmptyString.

(** [s.includes(sub)], as a proposition. *)
Definition includes (s sub : string) : Prop :=
  exists before after, s = before ++ sub ++ after.

(** [s.includes(sub)], as a test. *)
Fixpoint includesb (s sub : string) : bool :=
  startsWith s sub
  || match s with
     | String _ rest => includesb rest sub
     | EmptyString => false
     end.

(** The number of places of [s] at which [sub] starts. *)
Fixpoint occurrences (s sub : string) : nat :=
  (if startsWith s sub then 1 else 0)
  + match s with
    | String _ rest => occurrences rest sub
    | EmptyString => 0
    end.

(** ** JavaScript values *)

(** A number: not-a-number, an infinity, or a signed significand times a
    power of two, which covers every finite double, the two zeros
    included. *)
Inductive JsNumber : Type :=
  | NaN
  | Infinity (negative : bool)
  | Finite (negative : bool) (significand : N) (exponent : Z).

(** The number with an integer value. *)
Definition Number_of_Z (n : Z) : JsNumber :=
  Finite (Z.ltb n 0) (Z.abs_N n) 0.

(** An object is the finite map of its own properties; what it inherits
    from its prototype chain is supplied by the runtime (see [get_prop]).
    A function is known by its name only. *)
Inductive JsValue : Type :=
  | JUndefined
  | JNull
  | JBool (b : bool)
  | JNumber (x : JsNumber)
  | JString (s : string)
  | JArray (l : list JsValue)
  | JObject (m : gmap string JsValue)
  | JFunction (name : string).

Definition typeof (v : JsValue) : string :=
  match v with
  | JUndefined => "undefined"
  | JNull => "object"
  | JBool _ => "boolean"
  | JNumber _ => "number"
  | JString _ => "string"
  | JArray _ => "object"
  | JObject _ => "object"
  | JFunction _ => "function"
  end.

(** [v == null] *)
Definition nullish (v : JsValue) : bool :=
  match v with
  | JUndefined | JNull => true
  | _ => false
  end.

Definition safe_integer (n : Z) : Prop :=
  (- (2 ^ 53 - 1) <= n <= 2 ^ 53 - 1)%Z.

(** The decimal numeral of an integer: what [toString] yields on the
    safe integers. *)
Definition decimal_numeral (n : Z) : string :=
  NilZero.string_of_int (Z.to_int n).

(** ** lodash [get] *)

(** A path element as written in the source: a number or a string. *)
Inductive PathSegment : Type :=
  | PIndex (n : nat)
  | PName (s : string).

(** lodash [toKey]: every path element becomes a property key. *)
Definition toKey (p : PathSegment) : string :=
  match p with
  | PIndex n => NilZero.string_of_uint (Nat.to_uint n)
  | PName s => s
  end.

(** The array index a property key denotes, when it is a canonical
    decimal numeral. *)
Definition array_index (key : string) : option nat :=
  match NilZero.uint_of_string key with
  | Some d =>
      let n := Nat.of_uint d in
      if String.eqb (NilZero.string_of_uint (Nat.to_uint n)) key
      then Some n else None
  | None => None
  end.

(** The own property [key] of a value, if it has one: the entries of an
    object, the elements and the [length] of an array or a string. *)
Definition own_prop (object : JsValue) (key : string) : option JsValue :=
  match object with
  | JObject m => m !! key
  | JArray l =>
      match array_index key with
      | Some i => l !! i
      | None =>
          if String.eqb key "length"
          then Some (JNumber (Number_of_Z (Z.of_nat (length l)))) else None
      end
  | JString s =>
      match array_index key with
      | Some i =>
          match String.get i s with
          | Some c => Some (JString (String c EmptyString))
          | None => None
          end
      | None =>
          if String.eqb key "length"
          then Some (JNumber (Number_of_Z (Z.of_nat (String.length s))))
          else None
      end
  | _ => None
  end.

(** [object[key]] on a value that is not nullish: the own property if
    there is one, otherwise what the prototype chain of the value holds
    under [key] ([undefined] if nothing), which the runtime supplies as
    [inherited]; whatever a number, a boolean or a function holds under a
    key comes from [inherited] as well. [baseGet] never reads a property
    of [null] or [undefined]. *)
Definition get_prop (inherited : JsValue -> string -> JsValue)
    (object : JsValue) (key : string) : JsValue :=
  match own_prop object key with
  | Some v => v
  | None => inherited object key
  end.

(** lodash [baseGet]: walk the path while the current value is not
    nullish; a walk that stops early yields [undefined]. *)
Fixpoint baseGet (inherited : JsValue -> string -> JsValue)
    (object : JsValue) (path : list PathSegment) : JsValue :=
  match path with
  | [] => object
  | p :: rest =>
      if nullish object then JUndefined
      else baseGet inherited (get_prop inherited object (toKey p)) rest
  end.

(** lodash [get(object, path)] with an array path and no default. *)
Definition get (inherited : JsValue -> string -> JsValue)
    (object : JsValue) (path : list PathSegment) : JsValue :=
  match path with
  | [] => JUndefined
  | _ => if nullish object then JUndefined else baseGet inherited object path
  end.

(** ** Nodes, errors and configuration *)

(** What [this.getNode()] returns: the identity of the invoking node. *)
Record INode : Type := mkNode {
  node_name : string;
  node_type : string;
}.

(** A thrown value. Every rejection carries an inspectable message; an
    error built by this node also carries the node and, when given, the
    item index. *)
Record ExecutionError : Type := mkError {
  message : string;
  error_node : option INode;
  error_itemIndex : option nat;
}.

(** An [Error] raised by a collaborator or by the language runtime. *)
Definition Error (msg : string) : ExecutionError :=
  {| message := msg; error_node := None; error_itemIndex := None |}.

(** Modelled from the spec: the class [NodeOperationError] of n8n-workflow,
    constructed from a node and either a message or a caught error, is a
    structured error carrying the original message and the invoking node's
    identity. *)
Definition NodeOperationError (node : INode) (error : string + ExecutionError)
    (itemIndex : option nat) : ExecutionError :=
  {| message := match error with inl msg => msg | inr e => message e end;
     error_node := Some node;
     error_itemIndex := itemIndex |}.

(** One entry of the [fields.values] collection, read with
    [rawExpressions: true]; only the members the tool reads. *)
Record SetField : Type := mkSetField {
  name : string;
  type : string;
  objectValue : string;
}.

Record SetNodeOptions : Type := mkSetNodeOptions {
  include : string;
}.

Record IExecuteWorkflowInfo : Type := mkWorkflowInfo {
  id : option string;
  code : option JsValue;
}.

Inductive NodeConnectionType : Type :=
  | AiTool
  | Main.

(** ** Completions and the trace of collaborator calls *)

Inductive Completion (A : Type) : Type :=
  | Normal (a : A)
  | Thrown (e : ExecutionError).
Arguments Normal {A} a.
Arguments Thrown {A} e.

Inductive Effect : Type :=
  | InputData (connectionType : NodeConnectionType) (index : nat)
      (data : JsValue)
  | OutputData (connectionType : NodeConnectionType) (index : nat)
      (data : ExecutionError + JsValue)
  | SetExecute (item : JsValue) (itemIndex : nat) (options : SetNodeOptions)
      (rawData : gmap string JsValue) (node : INode)
  | ExecuteWorkflow (workflowInfo : IExecuteWorkflowInfo)
      (items : list JsValue).

(** The execute functions bound to [this], and what the language runtime
    of the host supplies: [JSON.parse], the lookup of a key on the
    prototype chain of a value ([prototype_get]) and
    [Number.prototype.toString] ([Number_toString]). A parameter read, the
    parser, the transform and the engine may each throw.
    [currentNodeRunIndex] is the index [addInputData] hands out, given what
    has been recorded so far. *)
Record Env : Type := mkEnv {
  getNode : INode;
  param_source : Completion string;
  param_responsePropertyName : Completion string;
  param_workflowId : Completion string;
  param_workflowJson : Completion string;
  param_fields_values : Completion (list SetField);
  JSON_parse : string -> Completion JsValue;
  prototype_get : JsValue -> string -> JsValue;
  Number_toString : JsNumber -> string;
  manual_execute :
    JsValue -> nat -> SetNodeOptions -> gmap string JsValue -> INode ->
    Completion JsValue;
  executeWorkflow : IExecuteWorkflowInfo -> list JsValue -> Completion JsValue;
  currentNodeRunIndex : list Effect -> nat;
}.

(** A computation reads and extends the trace and completes normally or
    by throwing. *)
Definition Exec (A : Type) : Type := list Effect -> Completion A * list Effect.

Definition ret {A} (a : A) : Exec A := fun tr => (Normal a, tr).

Definition throw {A} (e : ExecutionError) : Exec A := fun tr => (Thrown e, tr).

Definition bind {A B} (m : Exec A) (k : A -> Exec B) : Exec B :=
  fun tr =>
    match m tr with
    | (Normal a, tr') => k a tr'
    | (Thrown e, tr') => (Thrown e, tr')
    end.

Definition try_catch {A} (body : Exec A) (handler : ExecutionError -> Exec A)
    : Exec A :=
  fun tr =>
    match body tr with
    | (Normal a, tr') => (Normal a, tr')
    | (Thrown e, tr') => handler e tr'
    end.

(** A call whose outcome does not touch the trace. *)
Definition lift {A} (c : Completion A) : Exec A := fun tr => (c, tr).

(** A collaborator call: logged, then completed with its outcome. *)
Definition call {A} (ev : Effect) (c : Completion A) : Exec A :=
  fun tr => (c, (tr ++ [ev])%list).

Notation "'let*' x ':=' m 'in' k" := (bind m (fun x => k))
  (at level 10, x pattern, m at level 100, k at level 200).

Section ToolWorkflow.

Variable this : Env.

Definition itemIndex : nat := 0.

(** [this.addInputData(connectionType, data)] *)
Definition addInputData (connectionType : NodeConnectionType)
    (data : JsValue) : Exec nat :=
  fun tr =>
    let index := currentNodeRunIndex this tr in
    (Normal index, (tr ++ [InputData connectionType index data])%list).

(** [this.addOutputData(connectionType, index, data)] *)
Definition addOutputData (connectionType : NodeConnectionType) (index : nat)
    (data : ExecutionError + JsValue) : Exec unit :=
  fun tr => (Normal tt, (tr ++ [OutputData connectionType index data])%list).

(** The [{ json: { key: v } }] item shape. *)
Definition json_item (key : string) (v : JsValue) : JsValue :=
  JObject {[ "json" := JObject {[ key := v ]} ]}.

(** The workflow to run: by identifier, or parsed from the parameter. *)
Definition resolveWorkflowInfo (source : string)
    : Completion IExecuteWorkflowInfo :=
  if String.eqb source "database" then
    match param_workflowId this with
    | Normal workflowId => Normal {| id := Some workflowId; code := None |}
    | Thrown e => Thrown e
    end
  else if String.eqb source "parameter" then
    match param_workflowJson this with
    | Normal workflowJson =>
        match JSON_parse this workflowJson with
        | Normal parsed => Normal {| id := None; code := Some parsed |}
        | Thrown error =>
            Thrown (NodeOperationError (getNode this)
              (inl ("The provided workflow is not valid JSON: " ++ dquote
                    ++ message error ++ dquote))
              (Some itemIndex))
        end
    | Thrown e => Thrown e
    end
  else Normal {| id := None; code := None |}.

(** The test of the loop over the configured fields: an object-typed
    entry whose raw value starts with the expression marker. *)
Definition raw_object_entry (entry : SetField) : bool :=
  String.eqb (type entry) "objectValue" && startsWith (objectValue entry) "=".

(** [rawData[key] = value] for a string [value], on the plain object
    [rawData]: an own property is created or overwritten, except under
    the key "__proto__", where the assignment goes to the setter of
    [Object.prototype], which ignores a string and stores nothing. *)
Definition assign_string (rawData : gmap string JsValue) (key value : string)
    : gmap string JsValue :=
  if String.eqb key "__proto__" then rawData
  else <[key := JString value]> rawData.

(** One turn of that loop. *)
Definition compose_entry (rawData : gmap string JsValue) (entry : SetField)
    : gmap string JsValue :=
  if raw_object_entry entry
  then assign_string rawData (name entry) (strip_markers (objectValue entry))
  else rawData.

Definition composeRawData (query : string) (fields : list SetField)
    : gmap string JsValue :=
  fold_left compose_entry fields {[ "query" := JString query ]}.

Definition setOptions : SetNodeOptions := {| include := "all" |}.

Definition response_path (responsePropertyName : string) : list PathSegment :=
  [PIndex 0; PIndex 0; PName "json"; PName responsePropertyName].

Definition missing_property_message (responsePropertyName : string) : string :=
  "There was an error: " ++ dquote
  ++ "The workflow did not return an item with the property '"
  ++ responsePropertyName ++ "'" ++ dquote.

Definition runFunction (query : string) : Exec JsValue :=
  let* source := lift (param_source this) in
  let* responsePropertyName := lift (param_responsePropertyName this) in
  let* workflowInfo := lift (resolveWorkflowInfo source) in
  let* workflowFieldsJson := lift (param_fields_values this) in
  let rawData := composeRawData query workflowFieldsJson in
  let options := setOptions in
  let item := json_item "query" (JString query) in
  let* newItem :=
    call (SetExecute item itemIndex options rawData (getNode this))
         (manual_execute this item itemIndex options rawData (getNode this)) in
  let items := [newItem] in
  let* receivedData :=
    try_catch
      (call (ExecuteWorkflow workflowInfo items)
            (executeWorkflow this workflowInfo items))
      (fun error => throw (NodeOperationError (getNode this) (inr error) None)) in
  let response :=
    get (prototype_get this) receivedData
      (response_path responsePropertyName) in
  match response with
  | JUndefined =>
      throw (NodeOperationError (getNode this)
               (inl (missing_property_message responsePropertyName)) None)
  | _ => ret response
  end.

Definition error_text (msg : string) : string :=
  "There was an error: " ++ dquote ++ msg ++ dquote.

Definition invalid_type_message (response : JsValue) : string :=
  "The code did not return a valid value. Instead of a string did a value of type '"
  ++ typeof response ++ "' get returned.".

(** The [func] of the [DynamicTool]. *)
Definition func (query : string) : Exec JsValue :=
  let* index :=
    addInputData AiTool (JArray [JArray [json_item "query" (JString query)]]) in
  let* (response, executionError) :=
    try_catch
      (let* r := runFunction query in ret (r, None))
      (fun error => ret (JString (error_text (message error)), Some error)) in
  let response :=
    match response with
    | JNumber x => JString (Number_toString this x)
    | _ => response
    end in
  let '(response, executionError) :=
    if negb (String.eqb (typeof response) "string") then
      let e := NodeOperationError (getNode this)
                 (inl (invalid_type_message response)) None in
      (JString (error_text (message e)), Some e)
    else (response, executionError) in
  let* _ :=
    match executionError with
    | Some e => addOutputData AiTool index (inl e)
    | None =>
        addOutputData AiTool index
          (inr (JArray [JArray [json_item "response" response]]))
    end in
  ret response.

End ToolWorkflow.

(** ** Vocabulary of the statements *)

(** The events the node records on its AI-tool connection. *)
Definition is_provenance (ev : Effect) : bool :=
  match ev with
  | InputData _ _ _ | OutputData _ _ _ => true
  | _ => false
  end.

Definition is_execution (ev : Effect) : bool :=
  match ev with
  | ExecuteWorkflow _ _ => true
  | _ => false
  end.

(** [[[{ json: { query } }]]] and [[[{ json: { response } }]]] *)
Definition input_payload (query : string) : JsValue :=
  JArray [JArray [json_item "query" (JString query)]].

Definition response_payload (response : JsValue) : JsValue :=
  JArray [JArray [json_item "response" response]].

(** The parameters are readable, the workflow reference resolves to
    [workflowInfo] and the configured fields are [fields]. *)
Definition configured (this : Env) (responsePropertyName : string)
    (workflowInfo : IExecuteWorkflowInfo) (fields : list SetField) : Prop :=
  exists source,
    param_source this = Normal source /\
    param_responsePropertyName this = Normal responsePropertyName /\
    resolveWorkflowInfo this source = Normal workflowInfo /\
    param_fields_values this = Normal fields.

(** The call of the Set node's transform for [query]. *)
Definition compose_call (this : Env) (query : string) (fields : list SetField)
    : Effect :=
  SetExecute (json_item "query" (JString query)) itemIndex setOptions
    (composeRawData query fields) (getNode this).

(** Resolution and composition succeed and the transform returns
    [newItem]. *)
Definition prepared (this : Env) (query responsePropertyName : string)
    (workflowInfo : IExecuteWorkflowInfo) (fields : list SetField)
    (newItem : JsValue) : Prop :=
  configured this responsePropertyName workflowInfo fields /\
  manual_execute this (json_item "query" (JString query)) itemIndex setOptions
    (composeRawData query fields) (getNode this) = Normal newItem.

(** The loop's test, for an entry named [key]. *)
Definition passes_for (key : string) (entry : SetField) : bool :=
  String.eqb (name entry) key && raw_object_entry entry.

(** Some level of the lookup result -> first branch -> first item -> json
    -> named field is missing: the level before it is nullish, or the
    named field is neither an own property with a defined value nor found
    on the prototype chain. *)
Definition absent (inherited : JsValue -> string -> JsValue)
    (receivedData : JsValue) (responsePropertyName : string) : Prop :=
  let branch := get_prop inherited receivedData "0" in
  let item := get_prop inherited branch "0" in
  let json := get_prop inherited item "json" in
  nullish receivedData = true \/ nullish branch = true \/
  nullish item = true \/ nullish json = true \/
  get_prop inherited json responsePropertyName = JUndefined.

(** The events of one run that reaches the execution engine. *)
Definition run_trace (this : Env) (query : string) (index : nat)
    (workflowInfo : IExecuteWorkflowInfo) (fields : list SetField)
    (newItem : JsValue) (output : ExecutionError + JsValue) : list Effect :=
  [ InputData AiTool index (input_payload query);
    compose_call this query fields;
    ExecuteWorkflow workflowInfo [newItem];
    OutputData AiTool index output ].

(** ** A concrete host, for the scenarios *)

Definition demo_node : INode :=
  {| node_name := "Workflow Tool"; node_type := "toolWorkflow" |}.

(** The methods every ordinary value inherits from [Object.prototype]. *)
Definition Object_prototype_methods : list string :=
  [ "constructor"; "hasOwnProperty"; "isPrototypeOf"; "propertyIsEnumerable";
    "toLocaleString"; "toString"; "valueOf"; "__defineGetter__";
    "__defineSetter__"; "__lookupGetter__"; "__lookupSetter__" ].

Definition constructor_name (object : JsValue) : string :=
  match object with
  | JArray _ => "Array"
  | JString _ => "String"
  | JNumber _ => "Number"
  | JBool _ => "Boolean"
  | JFunction _ => "Function"
  | _ => "Object"
  end.

(** The prototype chain of the scenarios: the constructor of the value,
    the methods of [Object.prototype] and its accessor [__proto__]. The
    further members of [Array.prototype], [String.prototype] and the like
    are left out; no scenario reads them. *)
Definition demo_prototype_get (object : JsValue) (key : string) : JsValue :=
  if String.eqb key "constructor" then JFunction (constructor_name object)
  else if existsb (String.eqb key) Object_prototype_methods then JFunction key
  else if String.eqb key "__proto__" then
    JObject (list_to_map
               (map (fun k => (k, JFunction k)) Object_prototype_methods))
  else JUndefined.

(** The rendering of numbers of the scenarios: not-a-number, the
    infinities, the zeros and the safe integers written with exponent 0.
    For the other numbers it answers the empty string; no scenario reads
    them. *)
Definition demo_Number_toString (x : JsNumber) : string :=
  match x with
  | NaN => "NaN"
  | Infinity negative => if negative then "-Infinity" else "Infinity"
  | Finite negative significand 0 =>
      if N.leb significand (2 ^ 53 - 1) then
        decimal_numeral
          (if negative then - Z.of_N significand else Z.of_N significand)
      else ""
  | Finite _ _ _ => ""
  end.

(** A host whose parser accepts the empty object only, whose transform
    wraps the raw record into an item, and whose engine completes with
    [engine] whatever it is given. *)
Definition demo (source workflowJson responsePropertyName : string)
    (fields : list SetField) (engine : Completion JsValue) : Env :=
  {| getNode := demo_node;
     param_source := Normal source;
     param_responsePropertyName := Normal responsePropertyName;
     param_workflowId := Normal "42";
     param_workflowJson := Normal workflowJson;
     param_fields_values := Normal fields;
     JSON_parse := fun s =>
       if String.eqb s "{}" then Normal (JObject ∅)
       else Thrown (Error "Unexpected token n in JSON at position 1");
     prototype_get := demo_prototype_get;
     Number_toString := demo_Number_toString;
     manual_execute := fun _ _ _ rawData _ =>
       Normal (JObject {[ "json" := JObject rawData ]});
     executeWorkflow := fun _ _ => engine;
     currentNodeRunIndex := fun tr => length (List.filter is_provenance tr) |}.

(** The engine result [[[{ json: { key: v } }]]]. *)
Definition returns_item (key : string) (v : JsValue) : Completion JsValue :=
  Normal (JArray [JArray [json_item key v]]).

Definition by_id : IExecuteWorkflowInfo := {| id := Some "42"; code := None |}.

Definition demo_item (query : string) : JsValue :=
  JObject {[ "json" := JObject {[ "query" := JString query ]} ]}.

(** ** Building the tool *)

(** The two parameters [supplyData] reads itself, before any invocation. *)
Record ToolParameters : Type := mkToolParameters {
  param_name : Completion string;
  param_description : Completion string;
}.

(** The [DynamicTool] handed to the agent. *)
Record DynamicTool : Type := mkDynamicTool {
  tool_name : string;
  tool_description : string;
  tool_func : string -> Exec JsValue;
}.

Record SupplyData : Type := mkSupplyData {
  response : DynamicTool;
}.

(** [supplyData]: read name and description, wrap [func] into the tool. *)
Definition supplyData (this : Env) (parameters : ToolParameters)
    : Completion SupplyData :=
  match param_name parameters with
  | Thrown e => Thrown e
  | Normal name =>
      match param_description parameters with
      | Thrown e => Thrown e
      | Normal description =>
          Normal {| response := {| tool_name := name;
                                   tool_description := description;
                                   tool_func := func this |} |}
      end
  end.

(** The agent calling the tool once per query, one call after the other:
    the trace left behind. *)
Definition invoke_in_turn (tool : DynamicTool) (queries : list string)
    (tr : list Effect) : list Effect :=
  fold_left (fun tr query => snd (tool_func tool query tr)) queries tr.

(** The provenance events of one invocation. *)
Definition provenance_pair (query : string)
    (record : nat * (ExecutionError + JsValue)) : list Effect :=
  [ InputData AiTool (fst record) (input_payload query);
    OutputData AiTool (fst record) (snd record) ].

Definition is_transform (ev : Effect) : bool :=
  match ev with
  | SetExecute _ _ _ _ _ => true
  | _ => false
  end.

(** ** The editor's navigation guard *)

Module Router.

Section Guard.

(** The options of a middleware are opaque to the guard. *)
Variable Options : Type.

Inductive RouteLocationRaw : Type :=
  | LocationByName (name : string)
  | LocationByPath (path : string).

(** The members of a route's [meta] that the guard reads. *)
Record RouteMeta : Type := mkRouteMeta {
  middleware : option (list string);
  middlewareOptions : option (gmap string Options);
}.

Record RouteLocationNormalized : Type := mkRoute {
  name : option string;
  meta : option RouteMeta;
}.

(** What one run of a middleware does: the locations it passes to the
    [next] it was given, in order, and how it completes. *)
Record MiddlewareRun : Type := mkMiddlewareRun {
  next_calls : list RouteLocationRaw;
  completion : Completion unit;
}.

(** What the guard reaches outside the file: the [VIEWS.SETUP] constant,
    [initializeCore], the settings store after initialization, and the
    middleware table of the rbac module. *)
Record Host : Type := mkHost {
  VIEWS_SETUP : string;
  initializeCore : Completion unit;
  showSetupPage : bool;
  rbac_middleware :
    string -> RouteLocationNormalized -> RouteLocationNormalized ->
    option Options -> MiddlewareRun;
}.

Inductive GuardEvent : Type :=
  | InitializeCore
  | RunMiddleware (middlewareName : string) (options : option Options)
  | Next (location : option RouteLocationRaw).

(** The loop over the route's middleware, ended by [return next()]. *)
Fixpoint run_middleware (host : Host) (to from : RouteLocationNormalized)
    (routeMiddlewareOptions : gmap string Options)
    (routeMiddleware : list string) : list GuardEvent * Completion unit :=
  match routeMiddleware with
  | [] => ([Next None], Normal tt)
  | middlewareName :: rest =>
      let options := routeMiddlewareOptions !! middlewareName in
      let run := rbac_middleware host middlewareName to from options in
      let events :=
        RunMiddleware middlewareName options
        :: map (fun location => Next (Some location)) (next_calls run) in
      match completion run with
      | Thrown e => (events, Thrown e)
      | Normal _ =>
          match next_calls run with
          | [] =>
              let '(later, c) :=
                run_middleware host to from routeMiddlewareOptions rest in
              ((events ++ later)%list, c)
          | _ :: _ => (events, Normal tt)
          end
      end
  end.

(** The guard registered with [router.beforeEach]. *)
Definition beforeEach (host : Host) (to from : RouteLocationNormalized)
    : list GuardEvent * Completion unit :=
  match initializeCore host with
  | Thrown e => ([InitializeCore], Thrown e)
  | Normal _ =>
      if showSetupPage host then
        match name to with
        | Some n =>
            if String.eqb n (VIEWS_SETUP host)
            then ([InitializeCore; Next None], Normal tt)
            else ([InitializeCore;
                   Next (Some (LocationByName (VIEWS_SETUP host)))], Normal tt)
        | None =>
            ([InitializeCore;
              Next (Some (LocationByName (VIEWS_SETUP host)))], Normal tt)
        end
      else
        let routeMiddleware :=
          match meta to with
          | Some m => default [] (middleware m)
          | None => []
          end in
        let routeMiddlewareOptions :=
          match meta to with
          | Some m => default ∅ (middlewareOptions m)
          | None => ∅
          end in
        let '(events, c) :=
          run_middleware host to from routeMiddlewareOptions routeMiddleware in
        (InitializeCore :: events, c)
  end.

Definition is_next (ev : GuardEvent) : bool :=
  match ev with
  | Next _ => true
  | _ => false
  end.

(** A middleware that lets the navigation pass: it returns without
    calling [next]. *)
Definition passes (host : Host) (to from : RouteLocationNormalized)
    (routeMiddlewareOptions : gmap string Options) (middlewareName : string)
    : Prop :=
  rbac_middleware host middlewareName to from
    (routeMiddlewareOptions !! middlewareName)
  = {| next_calls := []; completion := Normal tt |}.

(** The options the guard reads for a route. *)
Definition options_of (to : RouteLocationNormalized) : gmap string Options :=
  match meta to with
  | Some m => default ∅ (middlewareOptions m)
  | None => ∅
  end.

Definition middleware_of (to : RouteLocationNormalized) : list string :=
  match meta to with
  | Some m => default [] (middleware m)
  | None => []
  end.

End Guard.

Arguments InitializeCore {Options}.
Arguments RunMiddleware {Options} middlewareName options.
Arguments Next {Options} location.

End Router.

(** The first failure on the way to the transform: reading the source or
    the response property name, resolving the workflow, or reading the
    fields. *)
Definition fails_before_transform (this : Env) (e : ExecutionError) : Prop :=
  param_source this = Thrown e \/
  exists source,
    param_source this = Normal source /\
    (param_responsePropertyName this = Thrown e \/
     exists responsePropertyName,
       param_responsePropertyName this = Normal responsePropertyName /\
       (resolveWorkflowInfo this source = Thrown e \/
        exists workflowInfo,
          resolveWorkflowInfo this source = Normal workflowInfo /\
          param_fields_values this = Thrown e)).

(** A host whose [workflowId] parameter cannot be read. *)
Definition unreadable_workflowId : Env :=
  {| getNode := demo_node;
     param_source := Normal "database";
     param_responsePropertyName := Normal "response";
     param_workflowId := Thrown (Error "Could not get parameter");
     param_workflowJson := Normal "{}";
     param_fields_values := Normal [];
     JSON_parse := fun _ => Normal JNull;
     prototype_get := demo_prototype_get;
     Number_toString := demo_Number_toString;
     manual_execute := fun item _ _ _ _ => Normal item;
     executeWorkflow := fun _ _ => returns_item "response" (JString "blue");
     currentNodeRunIndex := fun tr => length tr |}.

(** A host whose transform rejects the fields, with inline workflow
    [{}]. *)
Definition failing_transform : Env :=
  {| getNode := demo_node;
     param_source := Normal "parameter";
     param_responsePropertyName := Normal "response";
     param_workflowId := Normal "42";
     param_workflowJson := Normal "{}";
     param_fields_values := Normal [];
     JSON_parse := fun s =>
       if String.eqb s "{}" then Normal (JObject ∅)
       else Thrown (Error "Unexpected end of JSON input");
     prototype_get := demo_prototype_get;
     Number_toString := demo_Number_toString;
     manual_execute := fun _ _ _ _ _ => Thrown (Error "Invalid field value");
     executeWorkflow := fun _ _ => returns_item "response" (JString "blue");
     currentNodeRunIndex := fun tr => length tr |}.

Definition inline_empty : IExecuteWorkflowInfo :=
  {| id := None; code := Some (JObject ∅) |}.

(** The events of running the middleware [names] of a route. *)
Definition run_events {Options : Type} (opts : gmap string Options)
    (names : list string) : list (Router.GuardEvent Options) :=
  map (fun n => Router.RunMiddleware n (opts !! n)) names.

(** ** A concrete editor host, for the scenarios *)

(** Setup page at "SetupView"; the middleware "authenticated" lets
    every navigation pass, "role" redirects to the home page, and any
    other one behaves as [other]. *)
Definition demo_host (setup : bool) (other : Router.MiddlewareRun)
    : Router.Host (list string) :=
  {| Router.VIEWS_SETUP := "SetupView";
     Router.initializeCore := Normal tt;
     Router.showSetupPage := setup;
     Router.rbac_middleware := fun middlewareName _ _ _ =>
       if String.eqb middlewareName "authenticated" then
         {| Router.next_calls := []; Router.completion := Normal tt |}
       else if String.eqb middlewareName "role" then
         {| Router.next_calls := [Router.LocationByName "Homepage"];
            Router.completion := Normal tt |}
       else other |}.

Definition unauthorized : Router.MiddlewareRun :=
  {| Router.next_calls := [];
     Router.completion := Thrown (Error "Unauthorized") |}.

Definition lets_pass : Router.MiddlewareRun :=
  {| Router.next_calls := []; Router.completion := Normal tt |}.

Definition demo_route (routeName : string) (routeMiddleware : list string)
    : Router.RouteLocationNormalized (list string) :=
  {| Router.name := Some routeName;
     Router.meta :=
       Some {| Router.middleware := Some routeMiddleware;
               Router.middlewareOptions := Some {[ "role" := ["owner"] ]} |} |}.

(** ** The lookup *)

Lemma get_response_path (inherited : JsValue -> string -> JsValue)
    (receivedData : JsValue) (responsePropertyName : string) :
  let branch := get_prop inherited receivedData "0" in
  let item := get_prop inherited branch "0" in
  let json := get_prop inherited item "json" in
  get inherited receivedData (response_path responsePropertyName) =
  if nullish receivedData then JUndefined
  else if nullish branch then JUndefined
  else if nullish item then JUndefined
  else if nullish json then JUndefined
  else get_prop inherited json responsePropertyName.
Proof.
  unfold get, response_path; simpl.
  destruct (nullish receivedData); reflexivity.
Qed.

Lemma absent_get (inherited : JsValue -> string -> JsValue)
    (receivedData : JsValue) (responsePropertyName : string) :
  absent inherited receivedData responsePropertyName <->
  get inherited receivedData (response_path responsePropertyName) = JUndefined.
Proof.
  rewrite get_response_path. unfold absent. cbv zeta.
  destruct (nullish receivedData); [intuition|].
  destruct (nullish (get_prop inherited receivedData "0")); [intuition|].
  destruct (nullish (get_prop inherited (get_prop inherited receivedData "0") "0"));
    [intuition|].
  destruct (nullish (get_prop inherited
                       (get_prop inherited (get_prop inherited receivedData "0") "0")
                       "json"));
    intuition congruence.
Qed.

(** ** The trace of [runFunction] *)

Lemma filter_provenance_app (l1 l2 : list Effect) :
  List.filter is_provenance (l1 ++ l2)%list
  = (List.filter is_provenance l1 ++ List.filter is_provenance l2)%list.
Proof. apply List.filter_app. Qed.

(** [runFunction] only appends to the trace, and what it appends holds no
    provenance event. *)
Lemma runFunction_extends (this : Env) (query : string) (tr : list Effect) :
  exists mid,
    snd (runFunction this query tr) = (tr ++ mid)%list /\
    List.filter is_provenance mid = [].
Proof.
  unfold runFunction, bind, lift, call, try_catch, throw, ret.
  destruct (param_source this) as [source|e];
    [|exists []; simpl; rewrite app_nil_r; auto].
  destruct (param_responsePropertyName this) as [rpn|e];
    [|exists []; simpl; rewrite app_nil_r; auto].
  destruct (resolveWorkflowInfo this source) as [info|e];
    [|exists []; simpl; rewrite app_nil_r; auto].
  destruct (param_fields_values this) as [fields|e];
    [|exists []; simpl; rewrite app_nil_r; auto].
  destruct (manual_execute this _ _ _ _ _) as [newItem|e];
    [|eexists [_]; simpl; auto].
  destruct (executeWorkflow this info [newItem]) as [receivedData|e].
  - exists [compose_call this query fields; ExecuteWorkflow info [newItem]].
    destruct (get (prototype_get this) receivedData (response_path rpn)); simpl;
      rewrite <- app_assoc; auto.
  - exists [compose_call this query fields; ExecuteWorkflow info [newItem]].
    simpl. rewrite <- app_assoc; auto.
Qed.

(** The run of a prepared invocation, up to the engine's outcome. *)
Lemma runFunction_prepared (this : Env) (query responsePropertyName : string)
    (workflowInfo : IExecuteWorkflowInfo) (fields : list SetField)
    (newItem : JsValue) (tr : list Effect) :
  prepared this query responsePropertyName workflowInfo fields newItem ->
  runFunction this query tr =
  (match executeWorkflow this workflowInfo [newItem] with
   | Normal receivedData =>
       match get (prototype_get this) receivedData (response_path responsePropertyName) with
       | JUndefined =>
           Thrown (NodeOperationError (getNode this)
                     (inl (missing_property_message responsePropertyName)) None)
       | response => Normal response
       end
   | Thrown error => Thrown (NodeOperationError (getNode this) (inr error) None)
   end,
   (tr ++ [compose_call this query fields;
           ExecuteWorkflow workflowInfo [newItem]])%list).
Proof.
  intros [(source & Hs & Hn & Hw & Hf) Hm].
  unfold runFunction, bind, lift, call, try_catch, throw, ret.
  rewrite Hs, Hn, Hw, Hf, Hm.
  destruct (executeWorkflow this workflowInfo [newItem]) as [receivedData|e].
  - destruct (get (prototype_get this) receivedData (response_path responsePropertyName));
      rewrite <- app_assoc; reflexivity.
  - rewrite <- app_assoc; reflexivity.
Qed.

(** ** C1 and C2 *)

(** C1. For every query, [func] completes normally with a string: whatever
    the parameter reads, the parser, the transform and the engine do inside
    [runFunction], nothing thrown there leaves [func]. *)
Theorem func_always_resolves_to_string (this : Env) (query : string)
    (tr : list Effect) :
  exists text tr', func this query tr = (Normal (JString text), tr').
Proof.
  unfold func, bind, try_catch, ret, addInputData, addOutputData.
  destruct (runFunction this query _) as [[response|error] tr1].
  - destruct response; simpl; eauto.
  - simpl; eauto.
Qed.

(** C2. Every invocation of [func] appends to the trace exactly one input
    event followed by exactly one output event, both on the AI-tool
    connection, and the output event carries the index that the input
    event returned; this holds whatever path the invocation takes. *)
Theorem func_records_one_input_one_output (this : Env) (query : string)
    (tr : list Effect) :
  exists result new output,
    func this query tr = (result, (tr ++ new)%list) /\
    List.filter is_provenance new =
      [ InputData AiTool (currentNodeRunIndex this tr) (input_payload query);
        OutputData AiTool (currentNodeRunIndex this tr) output ].
Proof.
  unfold func, bind, try_catch, ret, addInputData, addOutputData.
  set (index := currentNodeRunIndex this tr).
  set (tr0 := (tr ++ [InputData AiTool index _])%list).
  destruct (runFunction_extends this query tr0) as (mid & Hsnd & Hmid).
  destruct (runFunction this query tr0) as [[response|error] tr1];
    simpl in Hsnd; subst tr1 tr0.
  - destruct response; simpl;
      (eexists _, (_ :: mid ++ [_])%list, _; split;
       [rewrite <- !app_assoc; reflexivity
       |simpl; rewrite filter_provenance_app, Hmid; reflexivity]).
  - simpl. eexists _, (_ :: mid ++ [_])%list, _; split;
      [rewrite <- !app_assoc; reflexivity
      |simpl; rewrite filter_provenance_app, Hmid; reflexivity].
Qed.

(** ** Outcomes of a prepared invocation *)

(** [func] ends with the output event, after whatever [runFunction]
    appended. *)
Lemma func_trace (this : Env) (query : string) (tr : list Effect) :
  exists result output,
    func this query tr =
    (result,
     (snd (runFunction this query
             (tr ++ [InputData AiTool (currentNodeRunIndex this tr)
                       (input_payload query)]))
      ++ [OutputData AiTool (currentNodeRunIndex this tr) output])%list).
Proof.
  unfold func, bind, try_catch, ret, addInputData, addOutputData.
  fold (input_payload query).
  destruct (runFunction this query _) as [[response|error] tr1].
  - destruct response; simpl; eauto.
  - simpl; eauto.
Qed.

Ltac run_prepared Hp :=
  unfold func, bind, try_catch, ret, addInputData, addOutputData;
  rewrite (runFunction_prepared _ _ _ _ _ _ _ Hp);
  unfold run_trace, input_payload.

Section StringFacts.

Local Arguments String.append : simpl nomatch.

Lemma append_nil_r (s : string) : s ++ "" = s.
Proof. induction s; simpl; [reflexivity | now rewrite IHs]. Qed.

Lemma append_assoc (a b c : string) : (a ++ b) ++ c = a ++ (b ++ c).
Proof. induction a; simpl; [reflexivity | now rewrite IHa]. Qed.

Lemma includes_refl (s : string) : includes s s.
Proof. exists "", "". simpl. now rewrite append_nil_r. Qed.

Lemma startsWith_append (sub after : string) :
  startsWith (sub ++ after) sub = true.
Proof.
  induction sub as [|c sub IH]; [reflexivity|].
  simpl. now rewrite Ascii.eqb_refl, IH.
Qed.

Lemma includes_includesb (s sub : string) :
  includes s sub -> includesb s sub = true.
Proof.
  intros (before & after & ->).
  induction before as [|c before IH].
  - simpl. destruct (sub ++ after) eqn:E.
    + simpl. rewrite <- E, startsWith_append. reflexivity.
    + simpl. rewrite <- E, startsWith_append. reflexivity.
  - simpl. rewrite IH. apply orb_true_r.
Qed.

End StringFacts.

(** Exhibit the text around an occurrence. *)
Ltac includes_by before after :=
  exists before, after;
  unfold NodeOperationError, error_text, missing_property_message,
    invalid_type_message; simpl message;
  rewrite ?append_assoc; reflexivity.

(** C3, as amended. The lookup of the response is tolerant: when the
    result, its first branch, its first item or the item's json mapping is
    missing, or the named field is neither an own property with a defined
    value nor found on the prototype chain, nothing is raised by the
    lookup; the invocation fails with the error whose message names the
    configured property, that error is what the output event records, and
    [func] completes with a string containing "did not return an item
    with the property '<responsePropertyName>'". *)
Theorem missing_response_property_reported (this : Env)
    (query responsePropertyName : string) (workflowInfo : IExecuteWorkflowInfo)
    (fields : list SetField) (newItem receivedData : JsValue)
    (tr : list Effect) :
  prepared this query responsePropertyName workflowInfo fields newItem ->
  executeWorkflow this workflowInfo [newItem] = Normal receivedData ->
  absent (prototype_get this) receivedData responsePropertyName ->
  exists text error,
    func this query tr =
      (Normal (JString text),
       (tr ++ run_trace this query (currentNodeRunIndex this tr) workflowInfo
                fields newItem (inl error))%list) /\
    error_node error = Some (getNode this) /\
    includes (message error)
      ("did not return an item with the property '"
       ++ responsePropertyName ++ "'") /\
    includes text
      ("did not return an item with the property '"
       ++ responsePropertyName ++ "'").
Proof.
  intros Hp He Ha. apply absent_get in Ha.
  run_prepared Hp. rewrite He, Ha. simpl.
  eexists _, _. split; [rewrite <- !app_assoc; reflexivity|].
  split; [reflexivity|].
  split.
  - includes_by ("There was an error: " ++ dquote ++ "The workflow ") dquote.
  - includes_by ("There was an error: " ++ dquote ++ "There was an error: "
                 ++ dquote ++ "The workflow ") (dquote ++ dquote).
Qed.

(** The spec's scenario: property "result" configured, the engine returns
    an item that has "response" only. *)
Lemma missing_response_property_reported_witness :
  prepared (demo "database" "" "result" [] (returns_item "response" (JString "blue")))
    "What colour?" "result" by_id [] (demo_item "What colour?") /\
  exists text error,
    func (demo "database" "" "result" [] (returns_item "response" (JString "blue")))
      "What colour?" [] =
      (Normal (JString text),
       run_trace (demo "database" "" "result" [] (returns_item "response" (JString "blue")))
         "What colour?" 0 by_id [] (demo_item "What colour?") (inl error)) /\
    error_node error = Some demo_node /\
    includes (message error) "did not return an item with the property 'result'" /\
    includes text "did not return an item with the property 'result'".
Proof.
  assert (Hp : prepared
            (demo "database" "" "result" [] (returns_item "response" (JString "blue")))
            "What colour?" "result" by_id [] (demo_item "What colour?")).
  { split; [exists "database"; repeat split|]; reflexivity. }
  split; [exact Hp|].
  apply (missing_response_property_reported _ _ _ _ _ _ _ [] Hp eq_refl).
  unfold absent. do 4 right. reflexivity.
Defined.

(** C3 as stated fails for a name that every object inherits: with the
    property "constructor" configured and an item whose json has the
    entry "response" only, the named field is absent from the item, yet
    the lookup finds the inherited constructor, the recorded error is the
    one about a value of type 'function', and the text does not contain
    "did not return an item with the property 'constructor'". *)
Lemma constructor_is_not_reported_missing :
  ({[ "response" := JString "blue" ]} : gmap string JsValue) !! "constructor"
    = None /\
  func (demo "database" "" "constructor" []
          (returns_item "response" (JString "blue")))
    "What colour?" [] =
    (Normal (JString (error_text
       "The code did not return a valid value. Instead of a string did a value of type 'function' get returned.")),
     run_trace (demo "database" "" "constructor" []
                  (returns_item "response" (JString "blue")))
       "What colour?" 0 by_id [] (demo_item "What colour?")
       (inl (NodeOperationError demo_node
               (inl "The code did not return a valid value. Instead of a string did a value of type 'function' get returned.")
               None))) /\
  ~ includes
      (error_text
         "The code did not return a valid value. Instead of a string did a value of type 'function' get returned.")
      "did not return an item with the property 'constructor'".
Proof.
  split; [reflexivity|]. split; [reflexivity|].
  intros H. apply includes_includesb in H. vm_compute in H. discriminate H.
Qed.

(** C4. When the engine's execute call rejects, the rejection is wrapped
    into an error carrying the original message and the invoking node, the
    engine is called once and not again, the output event records the
    wrapped error, and [func] completes with the text [There was an
    error: "<message>"]. *)
Theorem engine_rejection_wrapped (this : Env)
    (query responsePropertyName : string) (workflowInfo : IExecuteWorkflowInfo)
    (fields : list SetField) (newItem : JsValue) (error : ExecutionError)
    (tr : list Effect) :
  prepared this query responsePropertyName workflowInfo fields newItem ->
  executeWorkflow this workflowInfo [newItem] = Thrown error ->
  exists wrapped new,
    func this query tr =
      (Normal (JString (error_text (message error))), (tr ++ new)%list) /\
    new = run_trace this query (currentNodeRunIndex this tr) workflowInfo
            fields newItem (inl wrapped) /\
    message wrapped = message error /\
    error_node wrapped = Some (getNode this) /\
    List.filter is_execution new = [ExecuteWorkflow workflowInfo [newItem]] /\
    includes (error_text (message error))
      ("There was an error: " ++ dquote ++ message error ++ dquote).
Proof.
  intros Hp He. run_prepared Hp. rewrite He. simpl.
  eexists _, _. split; [rewrite <- !app_assoc; reflexivity|].
  split; [reflexivity|]. repeat split. apply includes_refl.
Qed.

(** The spec's scenario: the engine rejects with message "boom". *)
Lemma engine_rejection_wrapped_witness :
  prepared (demo "database" "" "response" [] (Thrown (Error "boom")))
    "What colour?" "response" by_id [] (demo_item "What colour?") /\
  exists wrapped new,
    func (demo "database" "" "response" [] (Thrown (Error "boom")))
      "What colour?" [] =
      (Normal (JString (error_text "boom")), new) /\
    new = run_trace (demo "database" "" "response" [] (Thrown (Error "boom")))
            "What colour?" 0 by_id [] (demo_item "What colour?") (inl wrapped) /\
    message wrapped = "boom" /\
    error_node wrapped = Some demo_node /\
    List.filter is_execution new = [ExecuteWorkflow by_id [demo_item "What colour?"]] /\
    includes (error_text "boom") ("There was an error: " ++ dquote ++ "boom" ++ dquote).
Proof.
  assert (Hp : prepared (demo "database" "" "response" [] (Thrown (Error "boom")))
            "What colour?" "response" by_id [] (demo_item "What colour?")).
  { split; [exists "database"; repeat split|]; reflexivity. }
  split; [exact Hp|].
  exact (engine_rejection_wrapped _ _ _ _ _ _ (Error "boom") [] Hp eq_refl).
Defined.

(** C5. With source "parameter" and a workflow JSON that the parser
    rejects, the resolution fails with an error carrying the parser's
    message; neither the transform nor the engine is called, both
    provenance events are recorded, and [func] completes with a string
    built from the parser's message. *)
Theorem invalid_workflow_json_reported (this : Env)
    (query responsePropertyName workflowJson : string)
    (error : ExecutionError) (tr : list Effect) :
  param_source this = Normal "parameter" ->
  param_responsePropertyName this = Normal responsePropertyName ->
  param_workflowJson this = Normal workflowJson ->
  JSON_parse this workflowJson = Thrown error ->
  exists failure,
    func this query tr =
      (Normal (JString (error_text (message failure))),
       (tr ++
        [ InputData AiTool (currentNodeRunIndex this tr) (input_payload query);
          OutputData AiTool (currentNodeRunIndex this tr) (inl failure) ])%list) /\
    message failure =
      "The provided workflow is not valid JSON: " ++ dquote
      ++ message error ++ dquote /\
    error_node failure = Some (getNode this) /\
    includes (error_text (message failure)) (message error).
Proof.
  intros Hs Hn Hj Hparse.
  unfold func, bind, try_catch, ret, addInputData, addOutputData.
  unfold runFunction, bind, lift. rewrite Hs, Hn.
  unfold resolveWorkflowInfo. rewrite Hj, Hparse. simpl.
  exists (NodeOperationError (getNode this)
            (inl ("The provided workflow is not valid JSON: " ++ dquote
                  ++ message error ++ dquote)) (Some itemIndex)).
  split; [rewrite <- !app_assoc; reflexivity|].
  split; [reflexivity|]. split; [reflexivity|].
  includes_by ("There was an error: " ++ dquote
               ++ "The provided workflow is not valid JSON: " ++ dquote)
              (dquote ++ dquote).
Qed.

(** The spec's scenario: the inline workflow is "{not valid json". *)
Lemma invalid_workflow_json_reported_witness :
  exists failure,
    func (demo "parameter" "{not valid json" "response" [] (returns_item "response" JNull))
      "What colour?" [] =
      (Normal (JString (error_text (message failure))),
       [ InputData AiTool 0 (input_payload "What colour?");
         OutputData AiTool 0 (inl failure) ]) /\
    message failure =
      "The provided workflow is not valid JSON: " ++ dquote
      ++ "Unexpected token n in JSON at position 1" ++ dquote /\
    error_node failure = Some demo_node /\
    includes (error_text (message failure))
      "Unexpected token n in JSON at position 1".
Proof.
  exact (invalid_workflow_json_reported
           (demo "parameter" "{not valid json" "response" []
              (returns_item "response" JNull))
           "What colour?" "response" "{not valid json"
           (Error "Unexpected token n in JSON at position 1") []
           eq_refl eq_refl eq_refl eq_refl).
Defined.

(** ** Numbers and other response types *)

(** Reading a decimal numeral back gives the number. *)
Lemma decimal_numeral_reads_back (n : Z) :
  option_map Z.of_int (NilZero.int_of_string (decimal_numeral n)) = Some n.
Proof.
  unfold decimal_numeral. rewrite NilZero.isi.
  - simpl. now rewrite DecimalZ.of_to.
  - destruct n; simpl; [discriminate| |discriminate].
    intros [= H]. now apply DecimalPos.Unsigned.to_uint_nonnil in H.
  - destruct n; simpl; [discriminate|discriminate|].
    intros [= H]. now apply DecimalPos.Unsigned.to_uint_nonnil in H.
Qed.

(** X1. A string response is handed back unchanged and recorded as the
    success payload [{ response }]. *)
Lemma string_response_returned (this : Env)
    (query responsePropertyName : string) (workflowInfo : IExecuteWorkflowInfo)
    (fields : list SetField) (newItem receivedData : JsValue) (text : string)
    (tr : list Effect) :
  prepared this query responsePropertyName workflowInfo fields newItem ->
  executeWorkflow this workflowInfo [newItem] = Normal receivedData ->
  get (prototype_get this) receivedData (response_path responsePropertyName) = JString text ->
  func this query tr =
    (Normal (JString text),
     (tr ++ run_trace this query (currentNodeRunIndex this tr) workflowInfo
              fields newItem (inr (response_payload (JString text))))%list).
Proof.
  intros Hp He Hg. run_prepared Hp. rewrite He, Hg. simpl.
  rewrite <- !app_assoc. reflexivity.
Qed.

Example blue_response :
  fst (func (demo "database" "" "response" []
               (returns_item "response" (JString "blue")))
         "What colour?" []) = Normal (JString "blue").
Proof. reflexivity. Qed.

(** The rendering of the scenarios writes a safe integer as its decimal
    numeral. *)
Lemma demo_Number_toString_safe (n : Z) :
  safe_integer n ->
  demo_Number_toString (Number_of_Z n) = decimal_numeral n.
Proof.
  unfold safe_integer, demo_Number_toString, Number_of_Z. intros [Hl Hu].
  destruct (N.leb_spec (Z.abs_N n) (2 ^ 53 - 1)) as [_|H]; [|lia].
  destruct (Z.ltb_spec n 0); f_equal; lia.
Qed.



(** C7. When the extracted value is present and is neither a string nor a
    number, the invocation is a failure: the output event records an error
    whose message names the value's runtime type, and [func] completes with
    the [There was an error:] text around that message. *)
Theorem invalid_response_type_reported (this : Env)
    (query responsePropertyName : string) (workflowInfo : IExecuteWorkflowInfo)
    (fields : list SetField) (newItem receivedData response : JsValue)
    (tr : list Effect) :
  prepared this query responsePropertyName workflowInfo fields newItem ->
  executeWorkflow this workflowInfo [newItem] = Normal receivedData ->
  get (prototype_get this) receivedData (response_path responsePropertyName) = response ->
  response <> JUndefined ->
  typeof response <> "string" ->
  typeof response <> "number" ->
  exists text failure,
    func this query tr =
      (Normal (JString text),
       (tr ++ run_trace this query (currentNodeRunIndex this tr) workflowInfo
                fields newItem (inl failure))%list) /\
    text = error_text (message failure) /\
    message failure =
      "The code did not return a valid value. Instead of a string did a value of type '"
      ++ typeof response ++ "' get returned." /\
    error_node failure = Some (getNode this) /\
    includes text ("type '" ++ typeof response ++ "'") /\
    includes text "There was an error:".
Proof.
  intros Hp He Hg Hu Hs Hn.
  exists (error_text (invalid_type_message response)),
         (NodeOperationError (getNode this)
            (inl (invalid_type_message response)) None).
  split.
  - run_prepared Hp. rewrite He, Hg.
    destruct response; try contradiction; simpl; try congruence;
      rewrite <- !app_assoc; reflexivity.
  - split; [reflexivity|]. split; [reflexivity|]. split; [reflexivity|].
    split.
    + includes_by ("There was an error: " ++ dquote
        ++ "The code did not return a valid value. Instead of a string did a value of ")
        (" get returned." ++ dquote).
    + includes_by "" (" " ++ dquote ++ invalid_type_message response ++ dquote).
Qed.

(** The spec's scenario: the engine returns [{ response: { nested: true } }]. *)
Lemma invalid_response_type_reported_witness :
  exists text failure,
    func (demo "database" "" "response" []
            (returns_item "response" (JObject {[ "nested" := JBool true ]})))
      "What colour?" [] =
      (Normal (JString text),
       run_trace (demo "database" "" "response" []
                    (returns_item "response" (JObject {[ "nested" := JBool true ]})))
         "What colour?" 0 by_id [] (demo_item "What colour?") (inl failure)) /\
    text = error_text (message failure) /\
    message failure =
      "The code did not return a valid value. Instead of a string did a value of type 'object' get returned." /\
    error_node failure = Some demo_node /\
    includes text "type 'object'" /\
    includes text "There was an error:".
Proof.
  assert (Hp : prepared
            (demo "database" "" "response" []
               (returns_item "response" (JObject {[ "nested" := JBool true ]})))
            "What colour?" "response" by_id [] (demo_item "What colour?")).
  { split; [exists "database"; repeat split|]; reflexivity. }
  apply (invalid_response_type_reported _ _ _ _ _ _ _
           (JObject {[ "nested" := JBool true ]}) [] Hp eq_refl eq_refl);
    discriminate.
Defined.

(** C9, as amended. When everything up to the extraction succeeds and the
    lookup of the configured property yields undefined (a level is
    missing, or the property is neither an own property with a defined
    value nor found on the prototype chain), the text [func] completes with
    carries the prefix [There was an error: ] and its opening double quote
    twice: once from the thrown message itself, once from the catch in
    [func]. *)
Theorem missing_property_text_wrapped_twice (this : Env)
    (query responsePropertyName : string) (workflowInfo : IExecuteWorkflowInfo)
    (fields : list SetField) (newItem receivedData : JsValue)
    (tr : list Effect) :
  prepared this query responsePropertyName workflowInfo fields newItem ->
  executeWorkflow this workflowInfo [newItem] = Normal receivedData ->
  absent (prototype_get this) receivedData responsePropertyName ->
  fst (func this query tr) =
    Normal (JString
      ("There was an error: " ++ dquote ++ "There was an error: " ++ dquote
       ++ "The workflow did not return an item with the property '"
       ++ responsePropertyName ++ "'" ++ dquote ++ dquote)) /\
  missing_property_message responsePropertyName =
    error_text ("The workflow did not return an item with the property '"
                ++ responsePropertyName ++ "'").
Proof.
  intros Hp He Hg. apply absent_get in Hg. split.
  - run_prepared Hp. rewrite He, Hg. simpl.
    unfold error_text, missing_property_message.
    rewrite ?append_assoc. reflexivity.
  - unfold error_text, missing_property_message.
    rewrite ?append_assoc. reflexivity.
Qed.

Lemma missing_property_text_wrapped_twice_witness :
  fst (func (demo "database" "" "result" [] (returns_item "response" (JString "blue")))
         "What colour?" []) =
    Normal (JString
      ("There was an error: " ++ dquote ++ "There was an error: " ++ dquote
       ++ "The workflow did not return an item with the property 'result'"
       ++ dquote ++ dquote)) /\
  missing_property_message "result" =
    error_text "The workflow did not return an item with the property 'result'".
Proof.
  assert (Hp : prepared
            (demo "database" "" "result" [] (returns_item "response" (JString "blue")))
            "What colour?" "result" by_id [] (demo_item "What colour?")).
  { split; [exists "database"; repeat split|]; reflexivity. }
  apply (missing_property_text_wrapped_twice _ _ _ _ _ _ _ [] Hp eq_refl).
  unfold absent. do 4 right. reflexivity.
Defined.

(** C9 as stated fails for a name that every object inherits: with the
    property "toString" configured and an item whose json has the entry
    "response" only, the property is absent from the item and every step
    up to the extraction succeeds, yet the text is the error about a value
    of type 'function', in which the prefix [There was an error: ] with
    its double quote occurs once. *)
Lemma inherited_toString_text_wrapped_once :
  ({[ "response" := JString "blue" ]} : gmap string JsValue) !! "toString"
    = None /\
  prepared (demo "database" "" "toString" []
              (returns_item "response" (JString "blue")))
    "What colour?" "toString" by_id [] (demo_item "What colour?") /\
  fst (func (demo "database" "" "toString" []
               (returns_item "response" (JString "blue")))
         "What colour?" []) =
    Normal (JString
      ("There was an error: " ++ dquote
       ++ "The code did not return a valid value. Instead of a string did a value of type 'function' get returned."
       ++ dquote)) /\
  occurrences
    ("There was an error: " ++ dquote
     ++ "The code did not return a valid value. Instead of a string did a value of type 'function' get returned."
     ++ dquote)
    ("There was an error: " ++ dquote) = 1.
Proof.
  split; [reflexivity|].
  split; [split; [exists "database"; repeat split|]; reflexivity|].
  split; reflexivity.
Qed.

(** ** The composer *)

Lemma strip_markers_split (s : string) :
  exists n,
    s = markers n ++ strip_markers s /\
    startsWith (strip_markers s) "=" = false.
Proof.
  induction s as [|c rest (n & Hn & Hs)].
  - now exists 0.
  - simpl strip_markers. destruct (Ascii.eqb c "=") eqn:Hc.
    + apply Ascii.eqb_eq in Hc. subst c.
      exists (S n). split; [|exact Hs].
      change (String "=" rest = String "=" (markers n ++ strip_markers rest)).
      now rewrite <- Hn.
    + exists 0. split; [reflexivity|].
      change (startsWith (String c rest) "=")
        with (Ascii.eqb "=" c && true).
      now rewrite Ascii.eqb_sym, Hc.
Qed.

(** Entries that do not pass the loop's test for [key] leave the value
    stored under [key] alone. *)
Lemma compose_keeps (later : list SetField) (rawData : gmap string JsValue)
    (key : string) (v : JsValue) :
  rawData !! key = Some v ->
  (forall entry, In entry later -> raw_object_entry entry = true ->
                 name entry <> key) ->
  fold_left compose_entry later rawData !! key = Some v.
Proof.
  revert rawData. induction later as [|entry later IH]; intros rawData Hv Hl.
  - exact Hv.
  - simpl. apply IH.
    + unfold compose_entry, assign_string.
      destruct (raw_object_entry entry) eqn:Hq; [|exact Hv].
      destruct (String.eqb (name entry) "__proto__"); [exact Hv|].
      rewrite lookup_insert_ne; [exact Hv|].
      apply Hl; [now left|exact Hq].
    + intros e He. apply Hl. now right.
Qed.

Lemma compose_entry_stores (rawData : gmap string JsValue) (entry : SetField) :
  raw_object_entry entry = true ->
  name entry <> "__proto__" ->
  compose_entry rawData entry !! name entry
  = Some (JString (strip_markers (objectValue entry))).
Proof.
  intros Hq Hn. unfold compose_entry, assign_string. rewrite Hq.
  apply String.eqb_neq in Hn. rewrite Hn. apply lookup_insert_eq.
Qed.

(** The last entry passing the test for its name decides the value. *)
Lemma composeRawData_last (query : string) (earlier later : list SetField)
    (entry : SetField) :
  raw_object_entry entry = true ->
  name entry <> "__proto__" ->
  (forall e, In e later -> raw_object_entry e = true ->
             name e <> name entry) ->
  composeRawData query (earlier ++ entry :: later) !! name entry
  = Some (JString (strip_markers (objectValue entry))).
Proof.
  intros Hq Hn Hl. unfold composeRawData.
  rewrite fold_left_app. simpl.
  apply compose_keeps; [now apply compose_entry_stores|exact Hl].
Qed.

Lemma last_passing (key : string) (fields : list SetField) :
  existsb (passes_for key) fields = true ->
  exists earlier entry later,
    fields = (earlier ++ entry :: later)%list /\
    name entry = key /\ raw_object_entry entry = true /\
    (forall e, In e later -> raw_object_entry e = true -> name e <> key).
Proof.
  induction fields as [|e0 rest IH]; [discriminate|].
  intros H. destruct (existsb (passes_for key) rest) eqn:Hrest.
  - destruct (IH eq_refl) as (earlier & entry & later & -> & Hk & Hq & Hl).
    exists (e0 :: earlier), entry, later. auto.
  - simpl in H. rewrite Hrest, orb_false_r in H.
    apply andb_true_iff in H as [Hk Hq]. apply String.eqb_eq in Hk.
    exists [], e0, rest. repeat split; auto.
    intros e He Hqe Hne.
    assert (existsb (passes_for key) rest = true); [|congruence].
    apply existsb_exists. exists e. split; [exact He|].
    unfold passes_for. rewrite Hqe, Hne, String.eqb_refl. reflexivity.
Qed.




(** ** The raw record reaches the transform *)

Lemma runFunction_configured (this : Env) (query responsePropertyName : string)
    (workflowInfo : IExecuteWorkflowInfo) (fields : list SetField)
    (tr : list Effect) :
  configured this responsePropertyName workflowInfo fields ->
  exists rest,
    snd (runFunction this query tr)
    = (tr ++ compose_call this query fields :: rest)%list.
Proof.
  intros (source & Hs & Hn & Hw & Hf).
  unfold runFunction, bind, lift, call, try_catch, throw, ret.
  rewrite Hs, Hn, Hw, Hf.
  destruct (manual_execute this _ _ _ _ _) as [newItem|e];
    [|exists []; reflexivity].
  exists [ExecuteWorkflow workflowInfo [newItem]].
  destruct (executeWorkflow this workflowInfo [newItem]) as [receivedData|e];
    [destruct (get (prototype_get this) receivedData (response_path responsePropertyName))|];
    simpl; rewrite <- app_assoc; reflexivity.
Qed.

(** C10. When a configured field named "query" has type "objectValue" and
    a raw value starting with the expression marker, the raw record that
    [func] hands to the transform maps "query" to the stripped raw value
    of such a field (that raw value without its one or more leading
    markers), not to the query the agent passed; the item handed over next
    to it still holds the agent's query. *)
Theorem query_override_replaces_agent_query (this : Env)
    (query responsePropertyName : string) (workflowInfo : IExecuteWorkflowInfo)
    (fields : list SetField) (tr : list Effect) :
  configured this responsePropertyName workflowInfo fields ->
  (exists entry, In entry fields /\ name entry = "query" /\
                 type entry = "objectValue" /\
                 startsWith (objectValue entry) "=" = true) ->
  exists entry rawData stored n,
    In entry fields /\ name entry = "query" /\
    type entry = "objectValue" /\
    startsWith (objectValue entry) "=" = true /\
    1 <= n /\ objectValue entry = markers n ++ stored /\
    startsWith stored "=" = false /\
    stored = strip_markers (objectValue entry) /\
    In (SetExecute (json_item "query" (JString query)) itemIndex setOptions
          rawData (getNode this))
       (snd (func this query tr)) /\
    rawData = composeRawData query fields /\
    rawData !! "query" = Some (JString stored) /\
    (stored <> query -> rawData !! "query" <> Some (JString query)).
Proof.
  intros Hc (e0 & Hin0 & Hk0 & Ht0 & Hs0).
  assert (Hex : existsb (passes_for "query") fields = true).
  { apply existsb_exists. exists e0. split; [exact Hin0|].
    unfold passes_for, raw_object_entry. now rewrite Hk0, Ht0, Hs0. }
  destruct (last_passing _ _ Hex) as (earlier & entry & later & -> & Hk & Hq & Hl).
  assert (Hv : composeRawData query (earlier ++ entry :: later) !! "query"
               = Some (JString (strip_markers (objectValue entry)))).
  { rewrite <- Hk. apply composeRawData_last; [exact Hq| |].
    - rewrite Hk. discriminate.
    - rewrite Hk. exact Hl. }
  unfold raw_object_entry in Hq. apply andb_true_iff in Hq as [Ht Hs].
  apply String.eqb_eq in Ht.
  destruct (strip_markers_split (objectValue entry)) as (n & Hn & Hf).
  assert (1 <= n).
  { destruct n; [|lia].
    change (objectValue entry = strip_markers (objectValue entry)) in Hn.
    rewrite <- Hn in Hf. congruence. }
  exists entry, (composeRawData query (earlier ++ entry :: later)),
         (strip_markers (objectValue entry)), n.
  repeat split; auto.
  - apply in_or_app. right. now left.
  - destruct (func_trace this query tr) as (result & output & ->).
    destruct (runFunction_configured this query _ _ _
                (tr ++ [InputData AiTool (currentNodeRunIndex this tr)
                          (input_payload query)]) Hc) as (rest & ->).
    simpl. apply in_or_app. left. apply in_or_app. right. now left.
  - rewrite Hv. congruence.
Qed.

(** A field named "query" of type object with raw value
    [={{ $json.topic }}] takes the place of the agent's query: the record
    handed to the transform holds [{{ $json.topic }}] under "query". *)
Lemma query_override_replaces_agent_query_witness :
  exists rawData,
    In (SetExecute (json_item "query" (JString "What colour?")) 0 setOptions
          rawData demo_node)
       (snd (func (demo "database" "" "response"
                     [mkSetField "query" "objectValue" "={{ $json.topic }}"]
                     (returns_item "response" (JString "blue")))
                  "What colour?" [])) /\
    rawData !! "query" = Some (JString "{{ $json.topic }}") /\
    rawData !! "query" <> Some (JString "What colour?").
Proof.
  destruct (query_override_replaces_agent_query
              (demo "database" "" "response"
                 [mkSetField "query" "objectValue" "={{ $json.topic }}"]
                 (returns_item "response" (JString "blue")))
              "What colour?" "response" by_id
              [mkSetField "query" "objectValue" "={{ $json.topic }}"] [])
    as (entry & rawData & stored & n & Hin & _ & _ & _ & _ & _ & _ & Hst
        & Htrace & _ & Hv & Hne).
  - exists "database". repeat split; reflexivity.
  - exists (mkSetField "query" "objectValue" "={{ $json.topic }}").
    repeat split; [now left|..]; reflexivity.
  - destruct Hin as [<-|[]]. simpl in Hst. subst stored.
    exists rawData. split; [exact Htrace|]. split; [exact Hv|].
    apply Hne. discriminate.
Defined.

(** ** Further properties of the tool *)

(** The scenario of a string answer: the engine returns
    [{ response: "blue" }]. *)
Lemma string_response_returned_witness :
  func (demo "database" "" "response" [] (returns_item "response" (JString "blue")))
    "What colour?" [] =
    (Normal (JString "blue"),
     run_trace (demo "database" "" "response" [] (returns_item "response" (JString "blue")))
       "What colour?" 0 by_id [] (demo_item "What colour?")
       (inr (response_payload (JString "blue")))).
Proof.
  assert (Hp : prepared
            (demo "database" "" "response" [] (returns_item "response" (JString "blue")))
            "What colour?" "response" by_id [] (demo_item "What colour?")).
  { split; [exists "database"; repeat split|]; reflexivity. }
  exact (string_response_returned _ _ _ _ _ _ _ "blue" [] Hp eq_refl eq_refl).
Defined.

(** What [runFunction] appends to the trace is nothing, the call of the
    transform alone (which then threw), or that call followed by one call of
    the engine on the single item the transform returned. *)
Lemma runFunction_shapes (this : Env) (query : string) (tr : list Effect) :
  exists c mid,
    runFunction this query tr = (c, (tr ++ mid)%list) /\
    ((mid = [] /\ exists e, c = Thrown e) \/
     (exists fields e,
        mid = [compose_call this query fields] /\ c = Thrown e /\
        param_fields_values this = Normal fields /\
        manual_execute this (json_item "query" (JString query)) itemIndex
          setOptions (composeRawData query fields) (getNode this) = Thrown e) \/
     (exists fields workflowInfo newItem,
        mid = [compose_call this query fields;
               ExecuteWorkflow workflowInfo [newItem]] /\
        param_fields_values this = Normal fields /\
        manual_execute this (json_item "query" (JString query)) itemIndex
          setOptions (composeRawData query fields) (getNode this)
          = Normal newItem)).
Proof.
  unfold runFunction, bind, lift, call, try_catch, throw, ret.
  destruct (param_source this) as [source|e];
    [|exists (Thrown e), []; rewrite app_nil_r; eauto].
  destruct (param_responsePropertyName this) as [rpn|e];
    [|exists (Thrown e), []; rewrite app_nil_r; eauto].
  destruct (resolveWorkflowInfo this source) as [info|e];
    [|exists (Thrown e), []; rewrite app_nil_r; eauto].
  destruct (param_fields_values this) as [fields|e];
    [|exists (Thrown e), []; rewrite app_nil_r; eauto].
  destruct (manual_execute this _ _ _ _ _) as [newItem|e] eqn:Hm.
  - destruct (executeWorkflow this info [newItem]) as [receivedData|e];
      [destruct (get (prototype_get this) receivedData (response_path rpn))|];
      eexists _, [_; _]; (split; [rewrite <- app_assoc; reflexivity|]);
      right; right; exists fields, info, newItem; auto.
  - exists (Thrown e), [compose_call this query fields].
    split; [reflexivity|]. right; left. exists fields, e. auto.
Qed.

(** X2. Whatever the host does, one invocation makes its calls in one of
    three orders: input event and output event only; input event, the
    transform, output event; or input event, the transform, the engine,
    output event. The transform is thus called at most once, the engine at
    most once and only after the transform returned, and the engine is
    given exactly the one item the transform returned. *)
Theorem func_calls_in_order (this : Env) (query : string) (tr : list Effect) :
  exists result output mid,
    func this query tr =
      (result,
       (tr ++ [InputData AiTool (currentNodeRunIndex this tr)
                 (input_payload query)]
           ++ mid
           ++ [OutputData AiTool (currentNodeRunIndex this tr) output])%list) /\
    (mid = [] \/
     (exists fields, mid = [compose_call this query fields]) \/
     (exists fields workflowInfo newItem,
        mid = [compose_call this query fields;
               ExecuteWorkflow workflowInfo [newItem]] /\
        manual_execute this (json_item "query" (JString query)) itemIndex
          setOptions (composeRawData query fields) (getNode this)
          = Normal newItem)).
Proof.
  destruct (func_trace this query tr) as (result & output & Hf).
  destruct (runFunction_shapes this query
              (tr ++ [InputData AiTool (currentNodeRunIndex this tr)
                        (input_payload query)]))
    as (c & mid & Hr & Hshape).
  rewrite Hr in Hf. simpl in Hf.
  exists result, output, mid. split.
  - rewrite Hf. rewrite <- !app_assoc. reflexivity.
  - destruct Hshape as [[-> _]|[(fields & e & -> & _)|(fields & info & newItem & -> & _ & Hm)]].
    + now left.
    + right; left. now exists fields.
    + right; right. now exists fields, info, newItem.
Qed.

(** X3. The text handed back and the output event always agree: either the
    event is the success payload holding exactly the returned text, or it
    is an error and the returned text is the error template around that
    error's message. *)
Theorem returned_text_matches_output_event (this : Env) (query : string)
    (tr : list Effect) :
  exists text earlier output,
    func this query tr =
      (Normal (JString text),
       (earlier ++ [OutputData AiTool (currentNodeRunIndex this tr) output])%list) /\
    (output = inr (response_payload (JString text)) \/
     exists e, output = inl e /\ text = error_text (message e)).
Proof.
  unfold func, bind, try_catch, ret, addInputData, addOutputData.
  destruct (runFunction this query _) as [[response|error] tr1].
  - destruct response; simpl; eexists _, tr1, _;
      (split; [reflexivity|]); (try (left; reflexivity));
      right; eexists; split; reflexivity.
  - simpl. eexists _, tr1, _. split; [reflexivity|].
    right. eexists; split; reflexivity.
Qed.

(** X4. When a parameter cannot be read or the workflow cannot be resolved,
    neither the transform nor the engine is called; the error is recorded
    as it was thrown and its message comes back inside the error
    template. *)
Theorem early_failure_skips_transform_and_engine (this : Env) (query : string)
    (e : ExecutionError) (tr : list Effect) :
  fails_before_transform this e ->
  func this query tr =
    (Normal (JString (error_text (message e))),
     (tr ++ [ InputData AiTool (currentNodeRunIndex this tr) (input_payload query);
              OutputData AiTool (currentNodeRunIndex this tr) (inl e) ])%list).
Proof.
  intros H.
  unfold func, bind, try_catch, ret, addInputData, addOutputData.
  unfold runFunction, bind, lift.
  destruct H as [Hs|(source & Hs & [Hn|(rpn & Hn & [Hw|(info & Hw & Hf)])])];
    rewrite ?Hs, ?Hn, ?Hw, ?Hf; simpl; rewrite <- !app_assoc; reflexivity.
Qed.

Lemma early_failure_skips_transform_and_engine_witness :
  func unreadable_workflowId "What colour?" [] =
    (Normal (JString (error_text "Could not get parameter")),
     [ InputData AiTool 0 (input_payload "What colour?");
       OutputData AiTool 0 (inl (Error "Could not get parameter")) ]).
Proof.
  apply (early_failure_skips_transform_and_engine unreadable_workflowId
           "What colour?" (Error "Could not get parameter") []).
  right. exists "database". split; [reflexivity|].
  right. exists "response". split; [reflexivity|].
  left. reflexivity.
Defined.

(** X5. When the transform throws, the engine is not called, and the error
    recorded and reported is the transform's own: it is not wrapped in a
    [NodeOperationError]. *)
Theorem transform_failure_skips_engine (this : Env)
    (query responsePropertyName : string) (workflowInfo : IExecuteWorkflowInfo)
    (fields : list SetField) (e : ExecutionError) (tr : list Effect) :
  configured this responsePropertyName workflowInfo fields ->
  manual_execute this (json_item "query" (JString query)) itemIndex setOptions
    (composeRawData query fields) (getNode this) = Thrown e ->
  func this query tr =
    (Normal (JString (error_text (message e))),
     (tr ++ [ InputData AiTool (currentNodeRunIndex this tr) (input_payload query);
              compose_call this query fields;
              OutputData AiTool (currentNodeRunIndex this tr) (inl e) ])%list).
Proof.
  intros (source & Hs & Hn & Hw & Hf) Hm.
  unfold func, bind, try_catch, ret, addInputData, addOutputData.
  unfold runFunction, bind, lift, call.
  rewrite Hs, Hn, Hw, Hf, Hm. simpl. rewrite <- !app_assoc. reflexivity.
Qed.

Lemma transform_failure_skips_engine_witness :
  func failing_transform "What colour?" [] =
    (Normal (JString (error_text "Invalid field value")),
     [ InputData AiTool 0 (input_payload "What colour?");
       compose_call failing_transform "What colour?" [];
       OutputData AiTool 0 (inl (Error "Invalid field value")) ]).
Proof.
  apply (transform_failure_skips_engine failing_transform "What colour?"
           "response" inline_empty [] (Error "Invalid field value") []).
  - exists "parameter". repeat split; reflexivity.
  - reflexivity.
Defined.

(** ** The resolver *)



(** ** More on the composer *)

(** X7. Stripping is idempotent, it removes a run of markers of any length
    put in front of a string, and a value made of markers only is stripped
    to the empty string. *)
Theorem strip_markers_idempotent (s : string) (n : nat) :
  strip_markers (strip_markers s) = strip_markers s /\
  strip_markers (markers n ++ s) = strip_markers s /\
  strip_markers (markers n) = "".
Proof.
  split; [|split].
  - induction s as [|c rest IH]; [reflexivity|].
    simpl. destruct (Ascii.eqb c "=") eqn:Hc; [exact IH|].
    simpl. now rewrite Hc.
  - induction n as [|n IH]; [reflexivity|]. exact IH.
  - induction n as [|n IH]; [reflexivity|]. exact IH.
Qed.

Lemma fold_compose_filter (fields : list SetField)
    (rawData : gmap string JsValue) :
  fold_left compose_entry fields rawData
  = fold_left compose_entry (List.filter raw_object_entry fields) rawData.
Proof.
  revert rawData. induction fields as [|entry rest IH]; intros rawData.
  - reflexivity.
  - simpl. destruct (raw_object_entry entry) eqn:Hq.
    + simpl. apply IH.
    + rewrite <- IH. unfold compose_entry. now rewrite Hq.
Qed.

(** X8. Only object fields whose raw value starts with the marker count:
    the raw record is the same as if all other fields had not been
    configured, and without any such field it is just the query. *)
Theorem other_fields_leave_rawData_alone (query : string)
    (fields : list SetField) :
  composeRawData query fields
    = composeRawData query (List.filter raw_object_entry fields) /\
  (List.filter raw_object_entry fields = [] ->
   composeRawData query fields = {[ "query" := JString query ]}).
Proof.
  split.
  - apply fold_compose_filter.
  - intros H. unfold composeRawData. rewrite fold_compose_filter, H.
    reflexivity.
Qed.

Lemma other_fields_leave_rawData_alone_witness :
  composeRawData "What colour?"
    [ mkSetField "limit" "numberValue" "";
      mkSetField "options" "objectValue" "{ }" ]
  = {[ "query" := JString "What colour?" ]}.
Proof.
  exact (proj2 (other_fields_leave_rawData_alone "What colour?"
                  [ mkSetField "limit" "numberValue" "";
                    mkSetField "options" "objectValue" "{ }" ])
               eq_refl).
Defined.

(** X9. The agent's query stays in the raw record as long as no object
    field with a marked value is itself named "query". *)
Theorem query_kept_without_override (query : string) (fields : list SetField) :
  (forall entry, In entry fields -> raw_object_entry entry = true ->
                 name entry <> "query") ->
  composeRawData query fields !! "query" = Some (JString query).
Proof.
  intros H. unfold composeRawData. apply compose_keeps; [|exact H].
  apply lookup_singleton_eq.
Qed.

Lemma query_kept_without_override_witness :
  composeRawData "What colour?"
    [ mkSetField "extra" "objectValue" "={a:1}";
      mkSetField "query" "stringValue" "" ] !! "query"
  = Some (JString "What colour?").
Proof.
  apply (query_kept_without_override "What colour?"
           [ mkSetField "extra" "objectValue" "={a:1}";
             mkSetField "query" "stringValue" "" ]).
  intros entry [<-|[<-|[]]]; simpl; [discriminate|discriminate].
Defined.

Lemma fold_compose_origin (fields : list SetField)
    (rawData : gmap string JsValue) (key : string) (v : JsValue) :
  fold_left compose_entry fields rawData !! key = Some v ->
  rawData !! key = Some v \/
  exists entry,
    In entry fields /\ raw_object_entry entry = true /\ name entry = key /\
    v = JString (strip_markers (objectValue entry)).
Proof.
  revert rawData. induction fields as [|entry rest IH]; intros rawData H.
  - now left.
  - simpl in H. apply IH in H as [H|(e & He & Hq & Hk & Hv)].
    + unfold compose_entry, assign_string in H.
      destruct (raw_object_entry entry) eqn:Hq; [|now left].
      destruct (String.eqb (name entry) "__proto__"); [now left|].
      destruct (decide (name entry = key)) as [Hk|Hk].
      * subst key. rewrite lookup_insert_eq in H. injection H as <-.
        right. exists entry. repeat split; auto. now left.
      * rewrite lookup_insert_ne in H by exact Hk. now left.
    + right. exists e. repeat split; auto. now right.
Qed.

(** X10. Every entry of the raw record is accounted for: it is the query
    under "query", or the stripped raw value of a configured object field
    of that name; its value is always a string, and apart from the agent's
    own query it never starts with the marker. *)
Theorem rawData_entries_accounted_for (query : string) (fields : list SetField)
    (key : string) (v : JsValue) :
  composeRawData query fields !! key = Some v ->
  (key = "query" /\ v = JString query) \/
  exists entry,
    In entry fields /\ type entry = "objectValue" /\
    startsWith (objectValue entry) "=" = true /\ name entry = key /\
    v = JString (strip_markers (objectValue entry)) /\
    startsWith (strip_markers (objectValue entry)) "=" = false.
Proof.
  intros H. apply fold_compose_origin in H as [H|(e & He & Hq & Hk & Hv)].
  - left. apply lookup_singleton_Some in H as [<- <-]. auto.
  - right. exists e.
    unfold raw_object_entry in Hq. apply andb_true_iff in Hq as [Ht Hs].
    apply String.eqb_eq in Ht.
    destruct (strip_markers_split (objectValue e)) as (n & _ & Hn).
    repeat split; auto.
Qed.

Lemma rawData_entries_accounted_for_witness :
  ("extra" = "query" /\ JString "{a:1}" = JString "What colour?") \/
  exists entry,
    In entry [mkSetField "extra" "objectValue" "=={a:1}"] /\
    type entry = "objectValue" /\
    startsWith (objectValue entry) "=" = true /\ name entry = "extra" /\
    JString "{a:1}" = JString (strip_markers (objectValue entry)) /\
    startsWith (strip_markers (objectValue entry)) "=" = false.
Proof.
  apply (rawData_entries_accounted_for "What colour?"
           [mkSetField "extra" "objectValue" "=={a:1}"] "extra"
           (JString "{a:1}")).
  vm_compute. reflexivity.
Defined.

(** ** More on the extraction *)

Lemma get_first_item (inherited : JsValue -> string -> JsValue)
    (responsePropertyName : string)
    (json item : gmap string JsValue) (items branches : list JsValue) :
  get inherited
      (JArray (JArray (JObject (<["json" := JObject json]> item) :: items)
               :: branches))
      (response_path responsePropertyName)
    = match json !! responsePropertyName with
      | Some v => v
      | None => inherited (JObject json) responsePropertyName
      end.
Proof.
  rewrite get_response_path. cbv zeta.
  change (get_prop inherited
            (JArray (JArray (JObject (<["json" := JObject json]> item)
                             :: items) :: branches)) "0")
    with (JArray (JObject (<["json" := JObject json]> item) :: items)).
  change (get_prop inherited
            (JArray (JObject (<["json" := JObject json]> item) :: items)) "0")
    with (JObject (<["json" := JObject json]> item)).
  unfold get_prop at 1 2 3. simpl own_prop. rewrite lookup_insert_eq.
  reflexivity.
Qed.

(** X12. A response property that is present with the value [null] is not
    treated as missing: the invocation fails with the error about a value
    of type 'object'. *)
Theorem null_response_is_a_type_error (this : Env)
    (query responsePropertyName : string) (workflowInfo : IExecuteWorkflowInfo)
    (fields : list SetField) (newItem : JsValue)
    (json item : gmap string JsValue) (items branches : list JsValue)
    (tr : list Effect) :
  prepared this query responsePropertyName workflowInfo fields newItem ->
  executeWorkflow this workflowInfo [newItem]
    = Normal (JArray (JArray (JObject (<["json" := JObject json]> item)
                              :: items) :: branches)) ->
  json !! responsePropertyName = Some JNull ->
  func this query tr =
    (Normal (JString (error_text
       "The code did not return a valid value. Instead of a string did a value of type 'object' get returned.")),
     (tr ++ run_trace this query (currentNodeRunIndex this tr) workflowInfo
              fields newItem
              (inl (NodeOperationError (getNode this)
                      (inl "The code did not return a valid value. Instead of a string did a value of type 'object' get returned.")
                      None)))%list).
Proof.
  intros Hp He Hj. run_prepared Hp. rewrite He.
  rewrite get_first_item, Hj.
  simpl. rewrite <- !app_assoc. reflexivity.
Qed.

Lemma null_response_is_a_type_error_witness :
  fst (func (demo "database" "" "response" [] (returns_item "response" JNull))
         "What colour?" [])
  = Normal (JString (error_text
      "The code did not return a valid value. Instead of a string did a value of type 'object' get returned.")).
Proof.
  assert (Hp : prepared
            (demo "database" "" "response" [] (returns_item "response" JNull))
            "What colour?" "response" by_id [] (demo_item "What colour?")).
  { split; [exists "database"; repeat split|]; reflexivity. }
  exact (f_equal fst
    (null_response_is_a_type_error _ _ _ _ _ _
       {[ "response" := JNull ]} ∅ [] [] [] Hp eq_refl eq_refl)).
Defined.

(** ** Building the tool and calling it in turn *)

Lemma func_provenance (this : Env) (query : string) (tr : list Effect) :
  exists new output,
    snd (func this query tr) = (tr ++ new)%list /\
    List.filter is_provenance new
    = provenance_pair query (currentNodeRunIndex this tr, output).
Proof.
  destruct (func_trace this query tr) as (result & output & ->).
  destruct (runFunction_extends this query
              (tr ++ [InputData AiTool (currentNodeRunIndex this tr)
                        (input_payload query)]))
    as (mid & -> & Hmid).
  exists ((InputData AiTool (currentNodeRunIndex this tr) (input_payload query)
           :: mid) ++ [OutputData AiTool (currentNodeRunIndex this tr) output])%list,
         output.
  split.
  - simpl. rewrite <- !app_assoc. reflexivity.
  - simpl. rewrite filter_provenance_app, Hmid. reflexivity.
Qed.

(** X14. When the tool is called for several queries one after the other,
    the provenance events left in the trace are, query by query and in the
    order of the calls, one input event holding that query and one output
    event with the same index: calls do not lose, duplicate or interleave
    each other's events. *)
Theorem calls_in_turn_record_pairs (this : Env) (parameters : ToolParameters)
    (supplied : SupplyData) (queries : list string) (tr : list Effect) :
  supplyData this parameters = Normal supplied ->
  exists new records,
    invoke_in_turn (response supplied) queries tr = (tr ++ new)%list /\
    length records = length queries /\
    List.filter is_provenance new
    = concat (zip_with provenance_pair queries records).
Proof.
  unfold supplyData.
  destruct (param_name parameters) as [n|e]; [|discriminate].
  destruct (param_description parameters) as [d|e]; [|discriminate].
  intros [= <-]. unfold invoke_in_turn. simpl tool_func.
  revert tr. induction queries as [|query rest IH]; intros tr.
  - exists [], []. rewrite app_nil_r. auto.
  - simpl fold_left.
    destruct (func_provenance this query tr) as (new1 & output & -> & H1).
    destruct (IH (tr ++ new1)%list) as (new2 & records & -> & Hlen & H2).
    exists (new1 ++ new2)%list,
           ((currentNodeRunIndex this tr, output) :: records).
    split; [now rewrite app_assoc|].
    split; [simpl; now rewrite Hlen|].
    rewrite filter_provenance_app, H1, H2. reflexivity.
Qed.

Lemma calls_in_turn_record_pairs_witness :
  exists new records,
    invoke_in_turn
      {| tool_name := "colour";
         tool_description := "Call this tool to get a colour.";
         tool_func :=
           func (demo "database" "" "response" []
                   (returns_item "response" (JString "blue"))) |}
      ["first"; "second"] [] = new /\
    length records = 2 /\
    List.filter is_provenance new
    = concat (zip_with provenance_pair ["first"; "second"] records).
Proof.
  exact (calls_in_turn_record_pairs
           (demo "database" "" "response" []
              (returns_item "response" (JString "blue")))
           {| param_name := Normal "colour";
              param_description := Normal "Call this tool to get a colour." |}
           _ ["first"; "second"] [] eq_refl).
Defined.

(** ** The navigation guard *)

Section GuardFacts.

Context {Options : Type}.
Implicit Types (host : Router.Host Options).
Implicit Types (to from : Router.RouteLocationNormalized Options).

Lemma run_events_no_next (opts : gmap string Options) (names : list string) :
  List.filter (@Router.is_next Options) (run_events opts names) = [].
Proof. induction names as [|n rest IH]; [reflexivity|exact IH]. Qed.

Lemma run_middleware_passing host to from (opts : gmap string Options)
    (quiet rest : list string) :
  Forall (Router.passes Options host to from opts) quiet ->
  Router.run_middleware Options host to from opts (quiet ++ rest)
  = ((run_events opts quiet
      ++ fst (Router.run_middleware Options host to from opts rest))%list,
     snd (Router.run_middleware Options host to from opts rest)).
Proof.
  induction 1 as [|n quiet Hn _ IH].
  - simpl. now destruct (Router.run_middleware _ _ _ _ _ _).
  - simpl. unfold Router.passes in Hn. rewrite Hn. simpl.
    rewrite IH. reflexivity.
Qed.

(** X15. While the setup page is pending, the guard consults no middleware:
    it lets the navigation to the setup view pass and redirects every
    other navigation to the setup view, calling [next] once. *)
Theorem setup_page_comes_first host to from (u : unit) :
  Router.initializeCore Options host = Normal u ->
  Router.showSetupPage Options host = true ->
  exists location,
    Router.beforeEach Options host to from
      = ([Router.InitializeCore; Router.Next location], Normal tt) /\
    (Router.name Options to = Some (Router.VIEWS_SETUP Options host) ->
     location = None) /\
    (Router.name Options to <> Some (Router.VIEWS_SETUP Options host) ->
     location
     = Some (Router.LocationByName (Router.VIEWS_SETUP Options host))).
Proof.
  intros Hi Hs. unfold Router.beforeEach. rewrite Hi, Hs.
  destruct (Router.name Options to) as [n|].
  - destruct (String.eqb_spec n (Router.VIEWS_SETUP Options host)) as [->|Hn].
    + eexists. split; [reflexivity|]. split; [reflexivity|]. congruence.
    + eexists. split; [reflexivity|]. split; [congruence|reflexivity].
  - eexists. split; [reflexivity|]. split; [discriminate|reflexivity].
Qed.

(** X16. Without a pending setup page the middleware of the route run in the
    configured order, each with its own options, until one of them calls
    [next]: the middleware after it are not run and the guard does not
    call [next] itself. *)
Theorem first_redirect_ends_chain host to from (u : unit)
    (quiet rest : list string) (middlewareName : string)
    (location : Router.RouteLocationRaw)
    (more : list Router.RouteLocationRaw) :
  Router.initializeCore Options host = Normal u ->
  Router.showSetupPage Options host = false ->
  Router.middleware_of Options to = (quiet ++ middlewareName :: rest)%list ->
  Forall (Router.passes Options host to from (Router.options_of Options to))
    quiet ->
  Router.rbac_middleware Options host middlewareName to from
    (Router.options_of Options to !! middlewareName)
  = {| Router.next_calls := location :: more;
       Router.completion := Normal tt |} ->
  Router.beforeEach Options host to from
  = ((Router.InitializeCore
      :: run_events (Router.options_of Options to) quiet
      ++ Router.RunMiddleware middlewareName
           (Router.options_of Options to !! middlewareName)
      :: map (fun l => Router.Next (Some l)) (location :: more))%list,
     Normal tt).
Proof.
  intros Hi Hs Hm Hq Hr. unfold Router.beforeEach. rewrite Hi, Hs.
  fold (Router.middleware_of Options to). fold (Router.options_of Options to).
  rewrite Hm, (run_middleware_passing _ _ _ _ _ _ Hq).
  simpl. rewrite Hr. reflexivity.
Qed.

(** X17. When every middleware of the route lets the navigation pass, and in
    particular when the route has none, the guard runs them all in order
    and then calls [next] once, without a location. *)
Theorem passing_chain_ends_with_next host to from (u : unit) :
  Router.initializeCore Options host = Normal u ->
  Router.showSetupPage Options host = false ->
  Forall (Router.passes Options host to from (Router.options_of Options to))
    (Router.middleware_of Options to) ->
  Router.beforeEach Options host to from
  = ((Router.InitializeCore
      :: run_events (Router.options_of Options to)
           (Router.middleware_of Options to)
      ++ [Router.Next None])%list,
     Normal tt).
Proof.
  intros Hi Hs Hq. unfold Router.beforeEach. rewrite Hi, Hs.
  fold (Router.middleware_of Options to). fold (Router.options_of Options to).
  rewrite <- (app_nil_r (Router.middleware_of Options to)) at 1.
  rewrite (run_middleware_passing _ _ _ _ _ _ Hq). reflexivity.
Qed.

(** X18. A middleware that fails without having called [next] makes the
    guard fail with the same error: the later middleware are not run and
    [next] is never called. *)
Theorem failing_middleware_blocks_navigation host to from (u : unit)
    (quiet rest : list string) (middlewareName : string)
    (e : ExecutionError) :
  Router.initializeCore Options host = Normal u ->
  Router.showSetupPage Options host = false ->
  Router.middleware_of Options to = (quiet ++ middlewareName :: rest)%list ->
  Forall (Router.passes Options host to from (Router.options_of Options to))
    quiet ->
  Router.rbac_middleware Options host middlewareName to from
    (Router.options_of Options to !! middlewareName)
  = {| Router.next_calls := []; Router.completion := Thrown e |} ->
  Router.beforeEach Options host to from
  = ((Router.InitializeCore
      :: run_events (Router.options_of Options to)
           (quiet ++ [middlewareName]))%list,
     Thrown e) /\
  List.filter (@Router.is_next Options)
    (fst (Router.beforeEach Options host to from)) = [].
Proof.
  intros Hi Hs Hm Hq Hr.
  assert (H : Router.beforeEach Options host to from
              = ((Router.InitializeCore
                  :: run_events (Router.options_of Options to)
                       (quiet ++ [middlewareName]))%list, Thrown e)).
  { unfold Router.beforeEach. rewrite Hi, Hs.
    fold (Router.middleware_of Options to).
    fold (Router.options_of Options to).
    rewrite Hm, (run_middleware_passing _ _ _ _ _ _ Hq).
    simpl. rewrite Hr. simpl. unfold run_events. rewrite map_app.
    reflexivity. }
  split; [exact H|]. rewrite H. simpl. apply run_events_no_next.
Qed.

Lemma run_middleware_next_once host to from (opts : gmap string Options)
    (names : list string) :
  (forall n t f o,
     Router.completion (Router.rbac_middleware Options host n t f o)
       = Normal tt /\
     length (Router.next_calls (Router.rbac_middleware Options host n t f o))
       <= 1) ->
  length (List.filter (@Router.is_next Options)
            (fst (Router.run_middleware Options host to from opts names))) = 1
  /\ snd (Router.run_middleware Options host to from opts names) = Normal tt.
Proof.
  intros H. induction names as [|n rest [IH1 IH2]]; [split; reflexivity|].
  simpl. destruct (H n to from (opts !! n)) as [Hc Hl]. rewrite Hc.
  destruct (Router.next_calls _) as [|l [|l' more]] eqn:Hn.
  - destruct (Router.run_middleware Options host to from opts rest).
    simpl in *. auto.
  - split; reflexivity.
  - simpl in Hl. lia.
Qed.

(** X19. When no middleware fails and none calls its [next] more than once,
    every navigation is answered by exactly one call of [next], and the
    guard completes normally: with or without a pending setup page, with
    or without middleware on the route. *)
Theorem next_called_exactly_once host to from (u : unit) :
  Router.initializeCore Options host = Normal u ->
  (forall n t f o,
     Router.completion (Router.rbac_middleware Options host n t f o)
       = Normal tt /\
     length (Router.next_calls (Router.rbac_middleware Options host n t f o))
       <= 1) ->
  length (List.filter (@Router.is_next Options)
            (fst (Router.beforeEach Options host to from))) = 1 /\
  snd (Router.beforeEach Options host to from) = Normal tt.
Proof.
  intros Hi H. unfold Router.beforeEach. rewrite Hi.
  destruct (Router.showSetupPage Options host).
  - destruct (Router.name Options to) as [n|];
      [destruct (String.eqb n _)|]; split; reflexivity.
  - match goal with
    | |- context [Router.run_middleware Options host to from ?o ?l] =>
        destruct (run_middleware_next_once host to from o l H) as [H1 H2];
        destruct (Router.run_middleware Options host to from o l)
    end.
    simpl in *. auto.
Qed.

End GuardFacts.

Lemma setup_page_comes_first_witness :
  exists location,
    Router.beforeEach _ (demo_host true unauthorized)
      (demo_route "WorkflowsView" ["authenticated"; "custom"])
      (demo_route "SigninView" ["guest"])
      = ([Router.InitializeCore; Router.Next location], Normal tt) /\
    (Some "WorkflowsView" = Some "SetupView" -> location = None) /\
    (Some "WorkflowsView" <> Some "SetupView" ->
     location = Some (Router.LocationByName "SetupView")).
Proof.
  exact (setup_page_comes_first (demo_host true unauthorized)
           (demo_route "WorkflowsView" ["authenticated"; "custom"])
           (demo_route "SigninView" ["guest"]) tt eq_refl eq_refl).
Defined.

Lemma first_redirect_ends_chain_witness :
  Router.beforeEach _ (demo_host false unauthorized)
    (demo_route "UsersSettings" ["authenticated"; "role"; "custom"])
    (demo_route "WorkflowsView" ["authenticated"])
  = ([ Router.InitializeCore;
       Router.RunMiddleware "authenticated" None;
       Router.RunMiddleware "role" (Some ["owner"]);
       Router.Next (Some (Router.LocationByName "Homepage")) ],
     Normal tt).
Proof.
  apply (first_redirect_ends_chain (demo_host false unauthorized)
           (demo_route "UsersSettings" ["authenticated"; "role"; "custom"])
           (demo_route "WorkflowsView" ["authenticated"]) tt
           ["authenticated"] ["custom"] "role"
           (Router.LocationByName "Homepage") []);
    try reflexivity.
  repeat constructor.
Defined.

Lemma passing_chain_ends_with_next_witness :
  Router.beforeEach _ (demo_host false unauthorized)
    (demo_route "WorkflowsView" ["authenticated"])
    (demo_route "SigninView" ["guest"])
  = ([ Router.InitializeCore;
       Router.RunMiddleware "authenticated" None;
       Router.Next None ],
     Normal tt).
Proof.
  apply (passing_chain_ends_with_next (demo_host false unauthorized)
           (demo_route "WorkflowsView" ["authenticated"])
           (demo_route "SigninView" ["guest"]) tt); try reflexivity.
  repeat constructor.
Defined.

Lemma failing_middleware_blocks_navigation_witness :
  Router.beforeEach _ (demo_host false unauthorized)
    (demo_route "UsageSettings" ["authenticated"; "custom"; "role"])
    (demo_route "WorkflowsView" ["authenticated"])
  = ([ Router.InitializeCore;
       Router.RunMiddleware "authenticated" None;
       Router.RunMiddleware "custom" None ],
     Thrown (Error "Unauthorized")) /\
  List.filter (@Router.is_next (list string))
    (fst (Router.beforeEach _ (demo_host false unauthorized)
            (demo_route "UsageSettings" ["authenticated"; "custom"; "role"])
            (demo_route "WorkflowsView" ["authenticated"]))) = [].
Proof.
  apply (failing_middleware_blocks_navigation (demo_host false unauthorized)
           (demo_route "UsageSettings" ["authenticated"; "custom"; "role"])
           (demo_route "WorkflowsView" ["authenticated"]) tt
           ["authenticated"] ["role"] "custom" (Error "Unauthorized"));
    try reflexivity.
  repeat constructor.
Defined.

Lemma next_called_exactly_once_witness :
  length (List.filter (@Router.is_next (list string))
            (fst (Router.beforeEach _ (demo_host false lets_pass)
                    (demo_route "UsersSettings" ["authenticated"; "role"; "custom"])
                    (demo_route "WorkflowsView" ["authenticated"])))) = 1 /\
  snd (Router.beforeEach _ (demo_host false lets_pass)
         (demo_route "UsersSettings" ["authenticated"; "role"; "custom"])
         (demo_route "WorkflowsView" ["authenticated"])) = Normal tt.
Proof.
  apply (next_called_exactly_once (demo_host false lets_pass)
           (demo_route "UsersSettings" ["authenticated"; "role"; "custom"])
           (demo_route "WorkflowsView" ["authenticated"]) tt eq_refl).
  intros n t f o. simpl.
  destruct (String.eqb n "authenticated"); [split; [reflexivity|simpl; lia]|].
  destruct (String.eqb n "role"); split; try reflexivity; simpl; lia.
Defined.
